(** * Energy-consumption metering: the two Lambda handlers

    A shallow embedding of [anomaly_alert_lambda.py] and
    [billing_api_lambda.py].

    - Python and pandas numbers (float64, int64) are rationals [Q] and
      their arithmetic is exact: the rounding and the overflow of float64
      are not modelled.  The missing-value marker NaN is a scalar of its own.
    - A raised Python exception is the [Raise] branch of [result]; the
      [try ... except Exception] of a handler is [try_except].
    - The S3 and SNS clients are the fields of a [World]; every call made on
      them is written to the [trace] of the [io] computation, in call order.
    - [pd.read_csv], [pd.to_datetime] with the dtype of the column it
      returns, and the number syntax accepted by [pd.to_numeric] belong to
      pandas and are the fields of the class [Pandas]; [print] only writes
      to the log and is left out. *)

From Stdlib Require Import QArith ZArith String Ascii List Lia Lqa ZifyNat.
From stdpp Require Import base option list gmap strings.

Open Scope string_scope.

(** ** Python values and exceptions *)

Record exn := Exception { exn_class : string; exn_msg : string }.

(** [str(e)] *)
Definition str (e : exn) : string := exn_msg e.

Inductive result (A : Type) : Type :=
  | Ok (a : A)
  | Raise (e : exn).
Arguments Ok {A} a.
Arguments Raise {A} e.

#[global] Instance result_ret : MRet result := @Ok.
#[global] Instance result_bind : MBind result :=
  λ A B f m, match m with Ok a => f a | Raise e => Raise e end.

(** A cell of a DataFrame, or a Python scalar read from one. *)
Inductive scalar : Type :=
  | NaN
  | Num (q : Q)
  | Str (s : string).

Definition Qltb (x y : Q) : bool := negb (Qle_bool y x).

(** [a > b] *)
Definition py_gt (a b : scalar) : result bool :=
  match a, b with
  | Num x, Num y => Ok (Qltb y x)
  | Str s, Str t => Ok (String.ltb t s)
  | Str _, _ | _, Str _ =>
      Raise (Exception "TypeError" "'>' not supported between instances of 'str' and 'float'")
  | _, _ => Ok false
  end.

(** [a == k] for a number [k] *)
Definition py_eq (a : scalar) (k : Q) : bool :=
  match a with
  | Num x => Qeq_bool x k
  | _ => false
  end.

(** [k * a] for a float [k], as the exact product *)
Definition py_mul (k : Q) (a : scalar) : result scalar :=
  match a with
  | Num x => Ok (Num (k * x))
  | NaN => Ok NaN
  | Str _ => Raise (Exception "TypeError" "can't multiply sequence by non-int of type 'float'")
  end.

(** [max(l, key=key)]: the running maximum is replaced only by a strictly
    greater element. *)
Fixpoint max_from {A : Type} (key : A → Z) (best : A) (l : list A) : A :=
  match l with
  | [] => best
  | x :: l' => max_from key (if (key best <? key x)%Z then x else best) l'
  end.

Definition py_max {A : Type} (key : A → Z) (l : list A) : result A :=
  match l with
  | [] => Raise (Exception "ValueError" "max() arg is an empty sequence")
  | x :: l' => Ok (max_from key x l')
  end.

(** ** Timestamps and [strftime] *)

Record Timestamp := { ts_year : nat; ts_month : nat; ts_day : nat }.

Definition digit (n : nat) : ascii := ascii_of_nat (48 + n mod 10).

Definition zero_pad2 (n : nat) : string :=
  String (digit (n / 10)) (String (digit n) "").

Definition zero_pad4 (n : nat) : string :=
  String (digit (n / 1000)) (String (digit (n / 100)) (zero_pad2 n)).

(** [strftime('%d-%m-%Y')] *)
Definition strftime_dmY (t : Timestamp) : string :=
  zero_pad2 (ts_day t) ++ "-" ++ zero_pad2 (ts_month t) ++ "-" ++ zero_pad4 (ts_year t).

(** [strftime('%Y-%m')] *)
Definition strftime_Ym (t : Timestamp) : string :=
  zero_pad4 (ts_year t) ++ "-" ++ zero_pad2 (ts_month t).

(** ** DataFrames *)

(** A frame as [pd.read_csv] returns it: the column labels in order and one
    map of cells per row.  A cell the map does not hold is a missing value. *)
Record RawFrame := { raw_columns : list string; raw_rows : list (gmap string scalar) }.

(** A frame whose ['Date'] column holds timestamps and no [NaT]. *)
Record Row := { Date : Timestamp; cells : gmap string scalar }.
Record DataFrame := { columns : list string; rows : list Row }.

Definition cell (r : gmap string scalar) (col : string) : scalar :=
  default NaN (r !! col).

(** [df[col]] on a raw frame *)
Definition raw_column (df : RawFrame) (col : string) : list scalar :=
  (λ r, cell r col) <$> raw_rows df.

(** [df[col]] *)
Definition get_column (df : DataFrame) (col : string) : result (list scalar) :=
  if bool_decide (col ∈ columns df)
  then Ok ((λ r, cell (cells r) col) <$> rows df)
  else Raise (Exception "KeyError" col).

(** [row[col]] for a row of a frame with the labels [cols] *)
Definition getitem (cols : list string) (r : Row) (col : string) : result scalar :=
  if bool_decide (col ∈ cols)
  then Ok (cell (cells r) col)
  else Raise (Exception "KeyError" col).

(** [df[col] = f(row)], row by row; a new label goes last. *)
Definition set_column (col : string) (f : gmap string scalar → scalar) (df : DataFrame) : DataFrame :=
  {| columns := if bool_decide (col ∈ columns df) then columns df else columns df ++ [col];
     rows := (λ r, {| Date := Date r; cells := <[col := f (cells r)]> (cells r) |}) <$> rows df |}.

(** [df['Date'] = dates] followed by [dropna(subset=['Date'])]: a row keeps
    its place when its date parsed and is dropped otherwise; a row the
    assigned series has no entry for gets [NaT]. *)
Fixpoint dropna_date (rs : list (gmap string scalar)) (dates : list (option Timestamp)) : list Row :=
  match rs with
  | [] => []
  | r :: rs' =>
      match dates with
      | Some t :: dates' => {| Date := t; cells := r |} :: dropna_date rs' dates'
      | None :: dates' => dropna_date rs' dates'
      | [] => []
      end
  end.

(** [fillna(k)] on one cell *)
Definition fillna (k : Q) (v : scalar) : scalar :=
  match v with NaN => Num k | _ => v end.

Definition is_str (v : scalar) : bool :=
  match v with Str _ => true | _ => false end.

Definition floats (s : list scalar) : list Q :=
  omap (λ v, match v with Num q => Some q | _ => None end) s.

Definition Qsum (l : list Q) : Q := fold_right Qplus 0%Q l.

(** [Series.mean()]: missing values are skipped, text cannot be averaged;
    the mean is the exact quotient. *)
Definition series_mean (s : list scalar) : result scalar :=
  if existsb is_str s
  then Raise (Exception "TypeError" "Could not convert string to numeric")
  else match floats s with
       | [] => Ok NaN
       | xs => Ok (Num (Qsum xs / inject_Z (Z.of_nat (length xs))))
       end.

(** ** pandas *)

Class Pandas := {
  (** the bytes of an S3 object *)
  StreamingBody : Type;
  (** [pd.read_csv(body)] *)
  read_csv : StreamingBody → result RawFrame;
  (** [pd.to_datetime(series, dayfirst=True, errors='coerce')]; [None] is [NaT] *)
  to_datetime : list scalar → list (option Timestamp);
  (** whether that result has a [datetime64] dtype, so that the Series has
      the [.dt] accessor; pandas returns an [object] column, which has none,
      for instance for dates with mixed UTC offsets *)
  datetimelike : list scalar → bool;
  (** the number a text cell denotes for [pd.to_numeric], if any *)
  parse_float : string → option Q;
}.

(** [pd.to_numeric(series, errors='coerce')] on one cell *)
Definition to_numeric `{Pandas} (v : scalar) : scalar :=
  match v with
  | Str s => match parse_float s with Some q => Num q | None => NaN end
  | _ => v
  end.

(** [df['Date'] = pd.to_datetime(df['Date'], dayfirst=True, errors='coerce')]
    and the [dropna] that follows it. *)
Definition parse_dates `{Pandas} (df : RawFrame) : DataFrame :=
  {| columns := raw_columns df;
     rows := dropna_date (raw_rows df) (to_datetime (raw_column df "Date")) |}.

(** ** JSON and responses *)

#[warnings="-register-all"] Inductive json : Type :=
  | JNull
  | JInt (n : Z)
  | JNum (q : Q)
  | JStr (s : string)
  | JArr (l : list json)
  | JObj (fields : list (string * json)).

(** A response body is a string: a plain text, or the serialization
    ([json.dumps], [to_json]) of a JSON value. *)
Inductive payload : Type :=
  | Text (s : string)
  | Json (j : json).

Record response := { statusCode : Z; body : payload }.

(** ** Alerts, the AWS clients and the calls made on them *)

(** An alert line, kept as the rule that wrote it and the values its
    f-string interpolates. *)
Inductive alert : Type :=
  | HighConsumption (date_str : string) (daily_sum avg_daily : scalar)
  | ZeroConsumption (date_str : string)
  | SubMeteringSpike (date_str col : string) (value : scalar).

Record S3Object := { Key : string; LastModified : Z }.

(** The response of [list_objects_v2]; S3 leaves ['Contents'] out when no
    object matches the prefix. *)
Record ListObjectsV2Output := { Contents : option (list S3Object) }.

Inductive call : Type :=
  | S3ListObjectsV2 (bucket prefix : string)
  | S3GetObject (bucket key : string)
  | SnsPublish (topic subject : string) (message : list alert).

Record World `{Pandas} := {
  (** the objects under a prefix, in listing order *)
  s3_listing : string → string → result (list S3Object);
  s3_body : string → string → result StreamingBody;
  (** delivery of a message whose lines are the given alerts *)
  sns_deliver : string → string → list alert → result unit;
}.

Record io (A : Type) : Type := IO { trace : list call; outcome : result A }.
Arguments IO {A} trace outcome.
Arguments trace {A} i.
Arguments outcome {A} i.

#[global] Instance io_ret : MRet io := λ A a, IO [] (Ok a).
#[global] Instance io_bind : MBind io :=
  λ A B f m,
    match outcome m with
    | Ok a => IO (trace m ++ trace (f a)) (outcome (f a))
    | Raise e => IO (trace m) (Raise e)
    end.

Definition lift {A : Type} (r : result A) : io A := IO [] r.

(** [try: m  except Exception as e: h e] *)
Definition try_except {A : Type} (m : io A) (h : exn → io A) : io A :=
  match outcome m with
  | Ok _ => m
  | Raise e => IO (trace m ++ trace (h e)) (outcome (h e))
  end.

Section Clients.
Context `{Pandas} (w : World).

(** [s3.list_objects_v2(Bucket=bucket, Prefix=prefix)] *)
Definition list_objects_v2 (bucket prefix : string) : io ListObjectsV2Output :=
  IO [S3ListObjectsV2 bucket prefix]
     (objs ← s3_listing w bucket prefix;
      Ok {| Contents := match objs with [] => None | _ => Some objs end |}).

(** [s3.get_object(Bucket=bucket, Key=key)['Body']] *)
Definition get_object (bucket key : string) : io StreamingBody :=
  IO [S3GetObject bucket key] (s3_body w bucket key).

(** [sns.publish(TopicArn=topic, Subject=subject, Message="\n".join(alerts))] *)
Definition publish (topic subject : string) (alerts : list alert) : io unit :=
  IO [SnsPublish topic subject alerts] (sns_deliver w topic subject alerts).

(** Both handlers start alike: list the prefix; without ['Contents'] there
    is no file ([None], the handler then returns its 404); otherwise
    [latest_file = max(response['Contents'], key=lambda x: x['LastModified'])['Key']]. *)
Definition find_latest (bucket prefix : string) : io (option string) :=
  response ← list_objects_v2 bucket prefix;
  match Contents response with
  | None => mret None
  | Some contents =>
      latest ← lift (py_max LastModified contents);
      mret (Some (Key latest))
  end.

(** [obj = s3.get_object(...)] and [df = pd.read_csv(obj['Body'])] *)
Definition load_csv (bucket latest_file : string) : io RawFrame :=
  obj ← get_object bucket latest_file;
  lift (read_csv obj).
End Clients.

(** ** anomaly_alert_lambda.py *)

Module Anomaly.

Definition BUCKET_NAME : string := "electricity-meter-aggregated-readings".
Definition S3_PREFIX : string := "data/billing_agg_".
Definition SNS_TOPIC_ARN : string := "arn:aws:sns:ap-south-1:487615743519:AnamolyDetection".

Definition sub_meter_cols : list string :=
  ["total_Sub_metering_1"; "total_Sub_metering_2"; "total_Sub_metering_3"].
Definition billing_cols : list string :=
  ["total_daily_sum"; "peak_charge"; "offpeak_charge"; "total_charge"].

Definition subject (latest_file : string) : string :=
  "⚠️ Billing Anomalies Detected in " ++ latest_file.

Section Handler.
Context `{Pandas}.

(** One turn of the loop over [sub_meter_cols + billing_cols]. *)
Definition coerce_column (df : DataFrame) (col : string) : DataFrame :=
  if bool_decide (col ∈ columns df)
  then set_column col (λ r, fillna 0 (to_numeric (cell r col))) df
  else set_column col (λ _, Num 0) df.

(** Step 3 after the date column: the whole loop. *)
Definition coerce_numeric (df : DataFrame) : DataFrame :=
  fold_left coerce_column (sub_meter_cols ++ billing_cols) df.

(** [df['total_daily_sum'].mean() if not df['total_daily_sum'].empty else 0] *)
Definition avg_daily_of (df : DataFrame) : result scalar :=
  s ← get_column df "total_daily_sum";
  match s with
  | [] => Ok (Num 0)
  | _ => series_mean s
  end.

(** Rule 1: high consumption *)
Definition rule_high (cols : list string) (avg_daily : scalar) (row : Row) (date_str : string)
  : result (list alert) :=
  positive ← py_gt avg_daily (Num 0);
  if (positive : bool) then
    v ← getitem cols row "total_daily_sum";
    limit ← py_mul (3 # 2) avg_daily;
    above ← py_gt v limit;
    if (above : bool) then Ok [HighConsumption date_str v avg_daily] else Ok []
  else Ok [].

(** Rule 2: zero consumption *)
Definition rule_zero (cols : list string) (row : Row) (date_str : string) : result (list alert) :=
  v ← getitem cols row "total_daily_sum";
  if py_eq v 0 then Ok [ZeroConsumption date_str] else Ok [].

(** Rule 3: sub-metering spike, the loop over [sub_meter_cols] *)
Fixpoint rule_spike (cols : list string) (row : Row) (date_str : string) (todo : list string)
  : result (list alert) :=
  match todo with
  | [] => Ok []
  | col :: todo' =>
      v ← getitem cols row col;
      above ← py_gt v (Num 10000);
      rest ← rule_spike cols row date_str todo';
      Ok ((if (above : bool) then [SubMeteringSpike date_str col v] else []) ++ rest)%list
  end.

(** The alerts one row appends, in rule order. *)
Definition row_alerts (cols : list string) (avg_daily : scalar) (row : Row) : result (list alert) :=
  let date_str := strftime_dmY (Date row) in
  a1 ← rule_high cols avg_daily row date_str;
  a2 ← rule_zero cols row date_str;
  a3 ← rule_spike cols row date_str sub_meter_cols;
  Ok (a1 ++ a2 ++ a3)%list.

(** [for idx, row in df.iterrows()] *)
Fixpoint scan_rows (cols : list string) (avg_daily : scalar) (rs : list Row) : result (list alert) :=
  match rs with
  | [] => Ok []
  | row :: rs' =>
      here ← row_alerts cols avg_daily row;
      rest ← scan_rows cols avg_daily rs';
      Ok (here ++ rest)%list
  end.

(** Step 4: anomaly detection *)
Definition detect (df : DataFrame) : result (list alert) :=
  avg_daily ← avg_daily_of df;
  scan_rows (columns df) avg_daily (rows df).

Definition processing_complete (latest_file : string) (records alerts : nat) : response :=
  {| statusCode := 200;
     body := Json (JObj [("message", JStr "Processing complete.");
                         ("file_processed", JStr latest_file);
                         ("records_analyzed", JInt (Z.of_nat records));
                         ("alerts_found", JInt (Z.of_nat alerts))]) |}.

(** Steps 3 and 4: cleaning, then detection. *)
Definition analyze (df : RawFrame) : result (DataFrame * list alert) :=
  if bool_decide ("Date" ∈ raw_columns df) then
    let df := parse_dates df in
    let df := coerce_numeric df in
    alerts ← detect df;
    Ok (df, alerts)
  else
    Raise (Exception "ValueError" "CSV file is missing the required 'Date' column.").

(** Step 5: one message with all alerts, if there are any. *)
Definition dispatch (w : World) (latest_file : string) (alerts : list alert) : io unit :=
  match alerts with
  | [] => mret ()
  | _ => publish w SNS_TOPIC_ARN (subject latest_file) alerts
  end.

Definition no_billing_files : response :=
  {| statusCode := 404; body := Text "No billing files found in S3" |}.

(** The [except Exception as e] branch. *)
Definition on_error (e : exn) : io response :=
  mret {| statusCode := 500; body := Json (JObj [("error", JStr (str e))]) |}.

Definition lambda_handler (w : World) : io response :=
  try_except
    (found ← find_latest w BUCKET_NAME S3_PREFIX;
     match found with
     | None => mret no_billing_files
     | Some latest_file =>
         raw ← load_csv w BUCKET_NAME latest_file;
         analysis ← lift (analyze raw);
         _ ← dispatch w latest_file analysis.2;
         mret (processing_complete latest_file (length (rows analysis.1)) (length analysis.2))
     end)
    on_error.

End Handler.
End Anomaly.

(** ** billing_api_lambda.py *)

Module Billing.

Definition BUCKET_NAME : string := "electricity-meter-aggregated-readings".
Definition S3_PREFIX : string := "data/billing_agg".

Definition billing_cols : list string :=
  ["total_Sub_metering_1"; "total_Sub_metering_2"; "total_Sub_metering_3";
   "avg_submetering_value"; "total_daily_sum";
   "peak_charge"; "offpeak_charge"; "total_charge"].

(** The invocation event, as far as the handler reads it. *)
Record Event := { queryStringParameters : option (gmap string string) }.

(** [(event.get('queryStringParameters') or {}).get('month')] *)
Definition month_param (event : Event) : option string :=
  default ∅ (queryStringParameters event) !! "month".

(** [json.dumps({"error": msg})] *)
Definition error_body (msg : string) : payload :=
  Json (JObj [("error", JStr msg)]).

(** One turn of the loop that creates the missing billing columns. *)
Definition add_missing (df : DataFrame) (col : string) : DataFrame :=
  if bool_decide (col ∈ columns df) then df else set_column col (λ _, Num 0) df.

(** [df[billing_cols] = df[billing_cols].fillna(0)] *)
Definition fillna_billing (df : DataFrame) : result DataFrame :=
  match list_find (λ col, col ∉ columns df) billing_cols with
  | Some (_, col) => Raise (Exception "KeyError" col)
  | None =>
      Ok {| columns := columns df;
            rows := (λ r, {| Date := Date r;
                             cells := foldr (λ col m, <[col := fillna 0 (cell (cells r) col)]> m)
                                            (cells r) billing_cols |})
                    <$> rows df |}
  end.

(** "Fill missing billing columns with 0": the loop over [billing_cols],
    then the [fillna]. *)
Definition fill_missing (df : DataFrame) : result DataFrame :=
  fillna_billing (fold_left add_missing billing_cols df).

(** One cell in [to_json]. *)
Definition json_of (v : scalar) : json :=
  match v with
  | NaN => JNull
  | Num q => JNum q
  | Str s => JStr s
  end.

(** One record of [to_json(orient='records')] after the selection
    [['Date'] + billing_cols] and the reformatting of ['Date']. *)
Definition record_json (r : Row) : json :=
  JObj (("Date", JStr (strftime_dmY (Date r)))
        :: ((λ col, (col, json_of (cell (cells r) col))) <$> billing_cols)).

(** [monthly_df[['Date'] + billing_cols]], the new ['Date'] and [to_json]. *)
Definition to_json (cols : list string) (monthly : list Row) : result json :=
  match list_find (λ col, col ∉ cols) ("Date" :: billing_cols) with
  | Some (_, col) => Raise (Exception "KeyError" col)
  | None => Ok (JArr (record_json <$> monthly))
  end.

(** [df['Date'].dt]: the accessor exists on a [datetime64] column only. *)
Definition dt_accessor (dt : bool) : result unit :=
  if dt then Ok ()
  else Raise (Exception "AttributeError" "Can only use .dt accessor with datetimelike values").

(** Everything between the date parsing and the response: the [df.empty]
    check, the missing columns, [fillna], the month filter through
    [df['Date'].dt], the selection and [to_json].  [dt] tells whether the
    Date column is [datetime64]. *)
Definition query (month : string) (dt : bool) (df : DataFrame) : result response :=
  match rows df with
  | [] => Ok {| statusCode := 500; body := error_body "No valid dates found in CSV" |}
  | _ =>
      df ← fill_missing df;
      _ ← dt_accessor dt;
      let monthly := filter (λ r, strftime_Ym (Date r) = month) (rows df) in
      match monthly with
      | [] => Ok {| statusCode := 404;
                    body := error_body ("No billing data found for month " ++ month) |}
      | _ =>
          records ← to_json (columns df) monthly;
          Ok {| statusCode := 200; body := Json records |}
      end
  end.

(** The [except Exception as e] branch. *)
Definition on_error (e : exn) : io response :=
  mret {| statusCode := 500;
          body := Json (JObj [("error", JStr "Internal server error");
                              ("details", JStr (str e))]) |}.

Section Handler.
Context `{Pandas}.

Definition lambda_handler (w : World) (event : Event) : io response :=
  try_except
    (match month_param event with
     | None | Some "" =>
         mret {| statusCode := 400;
                 body := error_body "Month parameter is required, e.g., ?month=2025-10" |}
     | Some month =>
         found ← find_latest w BUCKET_NAME S3_PREFIX;
         match found with
         | None => mret {| statusCode := 404; body := error_body "No billing files found in S3" |}
         | Some latest_file =>
             raw ← load_csv w BUCKET_NAME latest_file;
             if bool_decide ("Date" ∈ raw_columns raw)
             then lift (query month (datetimelike (raw_column raw "Date")) (parse_dates raw))
             else mret {| statusCode := 500; body := error_body "CSV missing 'Date' column" |}
         end
     end)
    on_error.

End Handler.
End Billing.

(** ** A small pandas and sample data, to run the handlers on *)

Module Sample.

Definition digit_value (c : ascii) : option nat :=
  let n := nat_of_ascii c in
  if ((48 <=? n) && (n <=? 57))%nat then Some (n - 48) else None.

Fixpoint digits_value (s : string) (acc : nat) : option nat :=
  match s with
  | EmptyString => Some acc
  | String c s' => d ← digit_value c; digits_value s' (10 * acc + d)
  end.

(** Unsigned decimal integers only. *)
Definition parse_nat (s : string) : option nat :=
  match s with
  | EmptyString => None
  | _ => digits_value s 0
  end.

(** [DD-MM-YYYY], read day first. *)
Definition parse_date (v : scalar) : option Timestamp :=
  match v with
  | Str s =>
      if ((String.length s =? 10)%nat
          && String.eqb (substring 2 1 s) "-" && String.eqb (substring 5 1 s) "-")
      then
        d ← parse_nat (substring 0 2 s);
        m ← parse_nat (substring 3 2 s);
        y ← parse_nat (substring 6 4 s);
        if ((1 <=? d) && (d <=? 31) && (1 <=? m) && (m <=? 12))%nat
        then Some {| ts_year := y; ts_month := m; ts_day := d |}
        else None
      else None
  | _ => None
  end.

#[local] Instance pandas : Pandas := {|
  StreamingBody := RawFrame;
  read_csv := Ok;
  to_datetime := fmap parse_date;
  datetimelike := λ _, true;
  parse_float := λ s, (λ n, inject_Z (Z.of_nat n)) <$> parse_nat s;
|}.

(** The same pandas, returning an [object] Date column (as for dates with
    mixed UTC offsets). *)
Definition pandas_mixed_offsets : Pandas := {|
  StreamingBody := RawFrame;
  read_csv := Ok;
  to_datetime := fmap parse_date;
  datetimelike := λ _, false;
  parse_float := λ s, (λ n, inject_Z (Z.of_nat n)) <$> parse_nat s;
|}.

(** A listing with several snapshots, two of them sharing the latest
    modification time. *)
Definition listing : list S3Object :=
  [ {| Key := "data/billing_agg_1.csv"; LastModified := 100 |};
    {| Key := "data/billing_agg_3.csv"; LastModified := 300 |};
    {| Key := "data/billing_agg_2.csv"; LastModified := 300 |} ].

Definition world (objs : list S3Object) (csv : result RawFrame) (sns : result unit) : World :=
  {| s3_listing := λ _ _, Ok objs;
     s3_body := λ _ _, csv;
     sns_deliver := λ _ _ _, sns |}.

Definition world_mixed_offsets (objs : list S3Object) (csv : result RawFrame)
    (sns : result unit) : @World pandas_mixed_offsets :=
  @Build_World pandas_mixed_offsets (λ _ _, Ok objs) (λ _ _, csv) (λ _ _ _, sns).

Definition row (kvs : list (string * scalar)) : gmap string scalar := list_to_map kvs.

Definition delivery_failed : exn :=
  Exception "ClientError" "An error occurred (InvalidParameter) when calling the Publish operation".

Definition access_denied : exn :=
  Exception "ClientError" "An error occurred (AccessDenied) when calling the GetObject operation".

Definition reading (date : string) (sm1 sm2 sm3 daily_sum : Q) : gmap string scalar :=
  row [("Date", Str date);
       ("total_Sub_metering_1", Num sm1);
       ("total_Sub_metering_2", Num sm2);
       ("total_Sub_metering_3", Num sm3);
       ("total_daily_sum", Num daily_sum)].

(** Four days with the daily sums 20, 15, 0 and 5: their mean is 10, so
    the second day sits exactly on the high-consumption limit 15, and its
    first sub-meter exactly on 10000. *)
Definition readings : RawFrame :=
  {| raw_columns := ["Date"; "total_Sub_metering_1"; "total_Sub_metering_2";
                     "total_Sub_metering_3"; "total_daily_sum"];
     raw_rows := [reading "01-10-2025" 20000 20000 20000 20;
                  reading "02-10-2025" 10000 0 0 15;
                  reading "03-10-2025" 20000 20000 20000 0;
                  reading "04-09-2025" 0 0 0 5] |}.

(** A daily-sum column that holds text: pandas reads every cell of it as a
    string, and the empty cell as a missing value. *)
Definition garbled : RawFrame :=
  {| raw_columns := ["Date"; "total_daily_sum"];
     raw_rows := [row [("Date", Str "01-10-2025"); ("total_daily_sum", Str "12")];
                  row [("Date", Str "02-10-2025"); ("total_daily_sum", Str "abc")];
                  row [("Date", Str "03-10-2025"); ("total_daily_sum", NaN)]] |}.

(** No date of this file can be parsed. *)
Definition undated : RawFrame :=
  {| raw_columns := ["Date"; "total_daily_sum"];
     raw_rows := [row [("Date", Str "yesterday"); ("total_daily_sum", Num 7)];
                  row [("Date", NaN); ("total_daily_sum", Num 9)]] |}.

(** A file without the ['Date'] column. *)
Definition dateless : RawFrame :=
  {| raw_columns := ["day"; "total_daily_sum"];
     raw_rows := [row [("day", Str "01-10-2025"); ("total_daily_sum", Num 7)]] |}.

Definition october : Billing.Event :=
  {| Billing.queryStringParameters := Some {[ "month" := "2025-10" ]} |}.

Definition latest_key : string := "data/billing_agg_3.csv".

End Sample.

(** ** Vocabulary of the statements *)

(** [x] is the first element of [l] whose key is maximal. *)
Definition first_maximal {A : Type} (key : A → Z) (x : A) (l : list A) : Prop :=
  ∃ pre post, l = (pre ++ x :: post)%list
    ∧ Forall (λ y, (key y < key x)%Z) pre
    ∧ Forall (λ y, (key y <= key x)%Z) post.

(** The handler found [latest_file] under the prefix and read [raw] from it. *)
Definition snapshot_loaded `{Pandas} (w : World) (bucket prefix latest_file : string)
    (raw : RawFrame) : Prop :=
  ∃ objs latest body,
    s3_listing w bucket prefix = Ok objs ∧
    py_max LastModified objs = Ok latest ∧
    latest_file = Key latest ∧
    s3_body w bucket latest_file = Ok body ∧
    read_csv body = Ok raw.

(** A raw row with the date parsed for it, if one was. *)
Definition dated (p : gmap string scalar * option Timestamp) : option Row :=
  (λ t, {| Date := t; cells := p.1 |}) <$> p.2.

(** Every date of the file fails to parse. *)
Definition no_valid_dates `{Pandas} (raw : RawFrame) : Prop :=
  Forall (λ d, d = None) (to_datetime (raw_column raw "Date")).

(** The columns the anomaly path coerces. *)
Definition numeric_cols : list string :=
  (Anomaly.sub_meter_cols ++ Anomaly.billing_cols)%list.

(** What the anomaly path leaves in column [col] of a row with the cells [m],
    in a frame with the labels [cols]. *)
Definition coerced `{Pandas} (cols : list string) (m : gmap string scalar) (col : string) : scalar :=
  if bool_decide (col ∈ cols) then fillna 0 (to_numeric (cell m col)) else Num 0.

(** [r'] is the row [r] after the coercion loop has run over [todo]. *)
Definition coerced_row `{Pandas} (cols todo : list string) (r r' : Row) : Prop :=
  Date r' = Date r ∧
  ∀ c, cell (cells r') c =
       if bool_decide (c ∈ todo) then coerced cols (cells r) c else cell (cells r) c.

Definition numeric_row (r : Row) : Prop :=
  ∀ c, c ∈ numeric_cols → ∃ q, cell (cells r) c = Num q.

Definition numeric_frame (df : DataFrame) : Prop :=
  (∀ c, c ∈ numeric_cols → c ∈ columns df) ∧ Forall numeric_row (rows df).

(** What the query path leaves in the billing column [col]. *)
Definition filled (cols : list string) (m : gmap string scalar) (col : string) : scalar :=
  if bool_decide (col ∈ cols) then fillna 0 (cell m col) else Num 0.

Definition filled_row (cols : list string) (r r' : Row) : Prop :=
  Date r' = Date r ∧
  ∀ c, cell (cells r') c =
       if bool_decide (c ∈ Billing.billing_cols) then filled cols (cells r) c
       else cell (cells r) c.

(** The record the query path serializes for the row [r] of a parsed frame
    with the labels [cols]. *)
Definition monthly_record (cols : list string) (r : Row) : json :=
  JObj [("Date", JStr (strftime_dmY (Date r)));
        ("total_Sub_metering_1", Billing.json_of (filled cols (cells r) "total_Sub_metering_1"));
        ("total_Sub_metering_2", Billing.json_of (filled cols (cells r) "total_Sub_metering_2"));
        ("total_Sub_metering_3", Billing.json_of (filled cols (cells r) "total_Sub_metering_3"));
        ("avg_submetering_value", Billing.json_of (filled cols (cells r) "avg_submetering_value"));
        ("total_daily_sum", Billing.json_of (filled cols (cells r) "total_daily_sum"));
        ("peak_charge", Billing.json_of (filled cols (cells r) "peak_charge"));
        ("offpeak_charge", Billing.json_of (filled cols (cells r) "offpeak_charge"));
        ("total_charge", Billing.json_of (filled cols (cells r) "total_charge"))].

(** The field names of a JSON object, in order. *)
Definition json_keys (j : json) : list string :=
  match j with
  | JObj fields => fields.*1
  | _ => []
  end.

(** The field order as section 3 of the specification lists the fields:
    [avg_submetering_value] comes last there. *)
Definition spec_column_order : list string :=
  ["Date"; "total_Sub_metering_1"; "total_Sub_metering_2"; "total_Sub_metering_3";
   "total_daily_sum"; "peak_charge"; "offpeak_charge"; "total_charge";
   "avg_submetering_value"].

(** Which rules wrote a line into a list of alerts. *)
Definition fired_high (alerts : list alert) : Prop :=
  ∃ d x y, HighConsumption d x y ∈ alerts.
Definition fired_zero (alerts : list alert) : Prop :=
  ∃ d, ZeroConsumption d ∈ alerts.
Definition fired_spike (col : string) (alerts : list alert) : Prop :=
  ∃ d x, SubMeteringSpike d col x ∈ alerts.

(** The responses of the query handler, by kind. *)
Inductive billing_response : response → Prop :=
  | billing_ok records :
      billing_response {| statusCode := 200; body := Json (JArr records) |}
  | billing_bad_request msg :
      billing_response {| statusCode := 400; body := Billing.error_body msg |}
  | billing_not_found msg :
      billing_response {| statusCode := 404; body := Billing.error_body msg |}
  | billing_schema_error msg :
      billing_response {| statusCode := 500; body := Billing.error_body msg |}
  | billing_internal_error details :
      billing_response {| statusCode := 500;
                          body := Json (JObj [("error", JStr "Internal server error");
                                              ("details", JStr details)]) |}.

(** The answer of the query handler when [df['Date'].dt] raises. *)
Definition no_dt_accessor : response :=
  {| statusCode := 500;
     body := Json (JObj [("error", JStr "Internal server error");
                         ("details",
                          JStr "Can only use .dt accessor with datetimelike values")]) |}.

(** The responses of the anomaly handler, by kind. *)
Inductive anomaly_response : response → Prop :=
  | anomaly_ok latest_file records alerts :
      anomaly_response (Anomaly.processing_complete latest_file records alerts)
  | anomaly_not_found msg :
      anomaly_response {| statusCode := 404; body := Text msg |}
  | anomaly_error msg :
      anomaly_response {| statusCode := 500; body := Json (JObj [("error", JStr msg)]) |}.

(** * Lemmas *)

Set Warnings "-clear-no-such-hyp".

(** ** Selection of the latest snapshot *)

Section Selection.
Context {A : Type} (key : A → Z).

Lemma max_from_first_maximal (l seen : list A) (best : A) :
  first_maximal key best seen →
  first_maximal key (max_from key best l) (seen ++ l)%list.
Proof.
  revert seen best. induction l as [|x l IH]; intros seen best Hbest; simpl.
  - by rewrite app_nil_r.
  - replace (seen ++ x :: l)%list with ((seen ++ [x]) ++ l)%list
      by (by rewrite <- app_assoc).
    apply IH. destruct Hbest as (pre & post & -> & Hpre & Hpost).
    destruct (Z.ltb_spec (key best) (key x)) as [Hlt|Hge].
    + exists (pre ++ best :: post)%list, []. split; [done|]. split; [|constructor].
      apply Forall_app. split.
      * eapply Forall_impl; [exact Hpre|]. simpl. lia.
      * constructor; [done|]. eapply Forall_impl; [exact Hpost|]. simpl. lia.
    + exists pre, (post ++ [x])%list. split.
      * by rewrite <- app_assoc.
      * split; [done|]. apply Forall_app. split; [done|]. constructor; [lia|constructor].
Qed.

Lemma py_max_first_maximal (l : list A) :
  l ≠ [] → ∃ x, py_max key l = Ok x ∧ first_maximal key x l.
Proof.
  destruct l as [|x l]; [done|]. intros _. exists (max_from key x l). split; [done|].
  apply (max_from_first_maximal l [x] x). exists [], []. repeat split; constructor.
Qed.

Lemma first_maximal_elem (x : A) (l : list A) : first_maximal key x l → x ∈ l.
Proof. intros (pre & post & -> & _). set_solver. Qed.

Lemma first_maximal_max (x : A) (l : list A) :
  first_maximal key x l → ∀ y, y ∈ l → (key y <= key x)%Z.
Proof.
  intros (pre & post & -> & Hpre & Hpost) y Hy.
  apply elem_of_app in Hy as [Hy|Hy].
  - rewrite Forall_forall in Hpre. specialize (Hpre y Hy). lia.
  - apply elem_of_cons in Hy as [->|Hy]; [lia|].
    rewrite Forall_forall in Hpost. by apply Hpost.
Qed.
End Selection.

(** ** Calls and traces *)

Lemma trace_bind {A B} (m : io A) (f : A → io B) :
  trace (m ≫= f) = (trace m ++ match outcome m with Ok a => trace (f a) | Raise _ => [] end)%list.
Proof. unfold mbind, io_bind. destruct (outcome m); simpl; [done|by rewrite app_nil_r]. Qed.

Lemma trace_try_except {A} (m : io A) (h : exn → io A) :
  ∃ rest, trace (try_except m h) = (trace m ++ rest)%list.
Proof.
  unfold try_except. destruct (outcome m).
  - exists []. by rewrite app_nil_r.
  - by eexists.
Qed.

Section ClientFacts.
Context `{Pandas} (w : World).

Lemma find_latest_some (bucket prefix : string) (objs : list S3Object) :
  s3_listing w bucket prefix = Ok objs → objs ≠ [] →
  ∃ x, py_max LastModified objs = Ok x ∧ first_maximal LastModified x objs ∧
       find_latest w bucket prefix = IO [S3ListObjectsV2 bucket prefix] (Ok (Some (Key x))).
Proof.
  intros Hl Hne.
  destruct (py_max_first_maximal LastModified objs Hne) as (x & Hmax & Hfirst).
  exists x. split; [done|]. split; [done|].
  unfold find_latest, list_objects_v2. cbn. rewrite Hl. cbn.
  destruct objs as [|o objs]; [done|]. cbn. cbn in Hmax. injection Hmax as ->. done.
Qed.

Lemma find_latest_none (bucket prefix : string) :
  s3_listing w bucket prefix = Ok [] →
  find_latest w bucket prefix = IO [S3ListObjectsV2 bucket prefix] (Ok None).
Proof. intros Hl. unfold find_latest, list_objects_v2. cbn. by rewrite Hl. Qed.

Lemma find_latest_raise (bucket prefix : string) (e : exn) :
  s3_listing w bucket prefix = Raise e →
  find_latest w bucket prefix = IO [S3ListObjectsV2 bucket prefix] (Raise e).
Proof. intros Hl. unfold find_latest, list_objects_v2. cbn. by rewrite Hl. Qed.

End ClientFacts.

(** ** Timestamps *)

Lemma digit_inj (a b : nat) : digit a = digit b → a mod 10 = b mod 10.
Proof.
  unfold digit. intros Heq. apply (f_equal nat_of_ascii) in Heq.
  pose proof (Nat.mod_upper_bound a 10). pose proof (Nat.mod_upper_bound b 10).
  rewrite !nat_ascii_embedding in Heq; lia.
Qed.

Lemma zero_pad2_digits (n m : nat) :
  zero_pad2 n = zero_pad2 m → (n / 10) mod 10 = (m / 10) mod 10 ∧ n mod 10 = m mod 10.
Proof.
  unfold zero_pad2. generalize (n / 10) (m / 10). intros a b [= H1 H2].
  split; by apply digit_inj.
Qed.

Lemma zero_pad2_inj (n m : nat) : (n < 100)%nat → (m < 100)%nat → zero_pad2 n = zero_pad2 m → n = m.
Proof. intros Hn Hm [H1 H2]%zero_pad2_digits. lia. Qed.

Lemma zero_pad4_inj (n m : nat) :
  (n < 100 * 100)%nat → (m < 100 * 100)%nat → zero_pad4 n = zero_pad4 m → n = m.
Proof.
  intros Hn Hm Heq.
  assert ((n / 1000) mod 10 = (m / 1000) mod 10 ∧ (n / 100) mod 10 = (m / 100) mod 10
          ∧ zero_pad2 n = zero_pad2 m) as (H1 & H2 & [H3 H4]%zero_pad2_digits).
  { revert Heq. unfold zero_pad4.
    generalize (n / 1000) (m / 1000) (n / 100) (m / 100) (zero_pad2 n) (zero_pad2 m).
    intros a b c d s s' [= Ha Hc ->]. repeat split; by apply digit_inj. }
  lia.
Qed.

(** Two timestamps print the same ['%Y-%m'] exactly when they lie in the same
    month of the same year. *)
Lemma strftime_Ym_same_month (t u : Timestamp) :
  (ts_year t < 100 * 100)%nat → (ts_year u < 100 * 100)%nat →
  (ts_month t < 100)%nat → (ts_month u < 100)%nat →
  strftime_Ym t = strftime_Ym u ↔ ts_year t = ts_year u ∧ ts_month t = ts_month u.
Proof.
  intros Hy Hy' Hm Hm'. split; [|by intros [Hyy Hmm]; unfold strftime_Ym; rewrite Hyy, Hmm].
  unfold strftime_Ym. intros Heq.
  assert (zero_pad4 (ts_year t) = zero_pad4 (ts_year u)
          ∧ zero_pad2 (ts_month t) = zero_pad2 (ts_month u)) as [H4 H2].
  { revert Heq. unfold zero_pad4, zero_pad2.
    generalize (digit (ts_year t / 1000)) (digit (ts_year t / 100)) (digit (ts_year t / 10))
               (digit (ts_year t)) (digit (ts_month t / 10)) (digit (ts_month t))
               (digit (ts_year u / 1000)) (digit (ts_year u / 100)) (digit (ts_year u / 10))
               (digit (ts_year u)) (digit (ts_month u / 10)) (digit (ts_month u)).
    cbn [String.append]. intros a1 a2 a3 a4 a5 a6 b1 b2 b3 b4 b5 b6 [= -> -> -> -> -> ->].
    done. }
  split; [by apply zero_pad4_inj|by apply zero_pad2_inj].
Qed.

(** ** The coercion loop of the anomaly path *)

Section Coercion.
Context `{Pandas}.

Lemma cell_insert (m : gmap string scalar) (col c : string) (v : scalar) :
  cell (<[col := v]> m) c = if bool_decide (c = col) then v else cell m c.
Proof.
  unfold cell. case_bool_decide as Hc.
  - subst. by rewrite lookup_insert_eq.
  - by rewrite lookup_insert_ne.
Qed.

Lemma coerce_column_columns (df : DataFrame) (col c : string) :
  c ∈ columns (Anomaly.coerce_column df col) ↔ c ∈ columns df ∨ c = col.
Proof.
  unfold Anomaly.coerce_column, set_column.
  repeat case_bool_decide; simpl; set_solver.
Qed.

Lemma coerce_column_rows (df : DataFrame) (col : string) :
  rows (Anomaly.coerce_column df col) =
  (λ r, {| Date := Date r; cells := <[col := coerced (columns df) (cells r) col]> (cells r) |})
    <$> rows df.
Proof.
  unfold Anomaly.coerce_column, set_column, coerced.
  case_bool_decide; simpl; done.
Qed.

Lemma coerce_fold (todo : list string) :
  NoDup todo → ∀ df : DataFrame,
  (∀ c, c ∈ columns (fold_left Anomaly.coerce_column todo df) ↔ c ∈ columns df ∨ c ∈ todo)
  ∧ Forall2 (coerced_row (columns df) todo)
            (rows df) (rows (fold_left Anomaly.coerce_column todo df)).
Proof.
  induction todo as [|col todo IH]; intros Hnd df; simpl.
  - split; [set_solver|]. apply Forall_Forall2_diag, Forall_forall.
    intros r _. split; [done|]. intros c. by case_bool_decide; [set_solver|].
  - apply NoDup_cons in Hnd as [Hcol Hnd].
    destruct (IH Hnd (Anomaly.coerce_column df col)) as [Hcols Hrows]. split.
    + intros c. rewrite Hcols, coerce_column_columns. set_solver.
    + rewrite coerce_column_rows, Forall2_fmap_l in Hrows.
      eapply Forall2_impl; [exact Hrows|]. intros r r' [Hd Hc]. simpl in *.
      split; [done|]. intros c. rewrite Hc, cell_insert.
      destruct (decide (c = col)) as [->|Hne].
      * rewrite (bool_decide_eq_false_2 _ Hcol), bool_decide_eq_true_2 by done.
        rewrite bool_decide_eq_true_2 by set_solver. done.
      * rewrite (bool_decide_eq_false_2 (c = col)) by done.
        destruct (decide (c ∈ todo)) as [Hin|Hnin].
        -- rewrite !bool_decide_eq_true_2 by set_solver.
           unfold coerced. rewrite cell_insert, (bool_decide_eq_false_2 (c = col)) by done.
           assert (c ∈ columns (Anomaly.coerce_column df col) ↔ c ∈ columns df) as Hiff
             by (rewrite coerce_column_columns; set_solver).
           destruct (decide (c ∈ columns df)).
           ++ rewrite !bool_decide_eq_true_2; [done..|]. by apply Hiff.
           ++ rewrite !bool_decide_eq_false_2; [done..|]. by rewrite Hiff.
        -- rewrite !bool_decide_eq_false_2; [done| set_solver |done].
Qed.
End Coercion.

(** ** The rules *)

Lemma bind_Ok {A B} (m : result A) (f : A → result B) (b : B) :
  m ≫= f = Ok b → ∃ a, m = Ok a ∧ f a = Ok b.
Proof. destruct m as [a|e]; [by exists a|done]. Qed.

Lemma Qltb_lt (x y : Q) : Qltb x y = true ↔ (x < y)%Q.
Proof.
  unfold Qltb. rewrite negb_true_iff, <- not_true_iff_false, Qle_bool_iff.
  split; [apply Qnot_le_lt|apply Qlt_not_le].
Qed.

Lemma py_gt_true (a : scalar) (y : Q) :
  py_gt a (Num y) = Ok true → ∃ x, a = Num x ∧ (y < x)%Q.
Proof.
  destruct a as [|x|s]; simpl; try done.
  intros [= Hlt]. exists x. by rewrite <- Qltb_lt.
Qed.

Lemma rule_high_fires cols avg row d alerts :
  Anomaly.rule_high cols avg row d = Ok alerts →
  alerts = [] ∨
  ∃ a x, avg = Num a ∧ getitem cols row "total_daily_sum" = Ok (Num x)
         ∧ (0 < a)%Q ∧ ((3 # 2) * a < x)%Q
         ∧ alerts = [HighConsumption d (Num x) (Num a)].
Proof.
  unfold Anomaly.rule_high. intros Hr.
  apply bind_Ok in Hr as (positive & Hpos & Hr).
  destruct positive; [|left; congruence].
  apply py_gt_true in Hpos as (a & -> & Ha).
  apply bind_Ok in Hr as (v & Hv & Hr).
  apply bind_Ok in Hr as (limit & Hlimit & Hr). injection Hlimit as <-.
  apply bind_Ok in Hr as (above & Habove & Hr).
  destruct above; [|left; congruence].
  apply py_gt_true in Habove as (x & -> & Hx).
  right. exists a, x. repeat split; try done. congruence.
Qed.

Lemma rule_zero_fires cols row d alerts :
  Anomaly.rule_zero cols row d = Ok alerts →
  alerts = [] ∨
  ∃ x, getitem cols row "total_daily_sum" = Ok (Num x) ∧ (x == 0)%Q
       ∧ alerts = [ZeroConsumption d].
Proof.
  unfold Anomaly.rule_zero. intros Hr.
  apply bind_Ok in Hr as (v & Hv & Hr).
  destruct v as [|x|s]; simpl in Hr; try (left; congruence).
  destruct (Qeq_bool x 0) eqn:Hz; [|left; congruence].
  right. exists x. apply Qeq_bool_iff in Hz. repeat split; try done. congruence.
Qed.

Lemma rule_spike_length cols row d todo alerts :
  Anomaly.rule_spike cols row d todo = Ok alerts → (length alerts ≤ length todo)%nat.
Proof.
  revert alerts. induction todo as [|col todo IH]; intros alerts; simpl.
  - intros [= <-]. done.
  - intros Hr.
    apply bind_Ok in Hr as (v & Hv & Hr).
    apply bind_Ok in Hr as (above & Habove & Hr).
    apply bind_Ok in Hr as (rest & Hrest & Hr).
    injection Hr as <-. specialize (IH _ Hrest).
    rewrite length_app. destruct above; simpl; lia.
Qed.

Lemma rule_spike_fires cols row d todo alerts a :
  Anomaly.rule_spike cols row d todo = Ok alerts → a ∈ alerts →
  ∃ col x, col ∈ todo ∧ getitem cols row col = Ok (Num x) ∧ (10000 < x)%Q
           ∧ a = SubMeteringSpike d col (Num x).
Proof.
  revert alerts. induction todo as [|col todo IH]; intros alerts; simpl.
  - intros [= <-]. by intros ?%elem_of_nil.
  - intros Hr Hin.
    apply bind_Ok in Hr as (v & Hv & Hr).
    apply bind_Ok in Hr as (above & Habove & Hr).
    apply bind_Ok in Hr as (rest & Hrest & Hr).
    injection Hr as <-.
    apply elem_of_app in Hin as [Hin|Hin].
    + destruct above; [|by apply elem_of_nil in Hin].
      apply list_elem_of_singleton in Hin as ->.
      apply py_gt_true in Habove as (x & -> & Hx).
      exists col, x. repeat split; try done. set_solver.
    + destruct (IH _ Hrest Hin) as (c & x & Hc & Hmore).
      exists c, x. split; [set_solver|done].
Qed.

(** The alerts of one row, rule by rule. *)
Lemma row_alerts_parts cols avg row alerts :
  Anomaly.row_alerts cols avg row = Ok alerts →
  ∃ a1 a2 a3,
    Anomaly.rule_high cols avg row (strftime_dmY (Date row)) = Ok a1 ∧
    Anomaly.rule_zero cols row (strftime_dmY (Date row)) = Ok a2 ∧
    Anomaly.rule_spike cols row (strftime_dmY (Date row)) Anomaly.sub_meter_cols = Ok a3 ∧
    alerts = (a1 ++ a2 ++ a3)%list.
Proof.
  unfold Anomaly.row_alerts. intros Hr.
  apply bind_Ok in Hr as (a1 & H1 & Hr).
  apply bind_Ok in Hr as (a2 & H2 & Hr).
  apply bind_Ok in Hr as (a3 & H3 & Hr).
  injection Hr as <-. by exists a1, a2, a3.
Qed.

Lemma high_zero_exclusive cols avg row alerts :
  Anomaly.row_alerts cols avg row = Ok alerts →
  ¬ (fired_high alerts ∧ fired_zero alerts).
Proof.
  intros (a1 & a2 & a3 & H1 & H2 & H3 & ->)%row_alerts_parts [(d & x & y & Hh) (d' & Hz)].
  destruct (rule_high_fires _ _ _ _ _ H1) as [->|(a & v & -> & Hv & Hpos & Hlim & ->)].
  - apply elem_of_app in Hh as [Hh|Hh]; [by apply elem_of_nil in Hh|].
    apply elem_of_app in Hh as [Hh|Hh].
    + destruct (rule_zero_fires _ _ _ _ H2) as [->|(? & _ & _ & ->)];
        [by apply elem_of_nil in Hh|by apply list_elem_of_singleton in Hh].
    + by destruct (rule_spike_fires _ _ _ _ _ _ H3 Hh) as (? & ? & _ & _ & _ & ?).
  - destruct (rule_zero_fires _ _ _ _ H2) as [->|(v' & Hv' & Hzero & ->)].
    + apply elem_of_app in Hz as [Hz|Hz]; [by apply list_elem_of_singleton in Hz|].
      apply elem_of_app in Hz as [Hz|Hz]; [by apply elem_of_nil in Hz|].
      by destruct (rule_spike_fires _ _ _ _ _ _ H3 Hz) as (? & ? & _ & _ & _ & ?).
    + rewrite Hv in Hv'. injection Hv' as <-. rewrite Hzero in Hlim. lra.
Qed.

Lemma row_alerts_length cols avg row alerts :
  Anomaly.row_alerts cols avg row = Ok alerts → (length alerts ≤ 4)%nat.
Proof.
  intros (a1 & a2 & a3 & H1 & H2 & H3 & ->)%row_alerts_parts.
  apply rule_spike_length in H3 as Hl3. simpl in Hl3. rewrite !length_app.
  destruct (rule_high_fires _ _ _ _ _ H1) as [->|(a & v & -> & Hv & Hpos & Hlim & ->)].
  - destruct (rule_zero_fires _ _ _ _ H2) as [->|(? & _ & _ & ->)]; simpl; lia.
  - destruct (rule_zero_fires _ _ _ _ H2) as [->|(v' & Hv' & Hzero & ->)]; [simpl; lia|].
    rewrite Hv in Hv'. injection Hv' as <-. rewrite Hzero in Hlim. lra.
Qed.

(** ** Detection on coerced frames *)

Lemma numeric_cols_NoDup : NoDup numeric_cols.
Proof. compute_done. Qed.

Section Numeric.
Context `{Pandas}.

Lemma coerced_num cols m c : ∃ q, coerced cols m c = Num q.
Proof.
  unfold coerced, to_numeric. case_bool_decide; [|by eexists].
  destruct (cell m c) as [|q|s]; simpl; [by eexists..|].
  destruct (parse_float s); simpl; by eexists.
Qed.

Lemma coerce_numeric_rows (df : DataFrame) :
  Forall2 (coerced_row (columns df) numeric_cols) (rows df) (rows (Anomaly.coerce_numeric df)).
Proof. apply (coerce_fold numeric_cols numeric_cols_NoDup df). Qed.

Lemma coerce_numeric_columns (df : DataFrame) (c : string) :
  c ∈ columns (Anomaly.coerce_numeric df) ↔ c ∈ columns df ∨ c ∈ numeric_cols.
Proof. apply (coerce_fold numeric_cols numeric_cols_NoDup df). Qed.

Lemma coerce_numeric_length (df : DataFrame) :
  length (rows (Anomaly.coerce_numeric df)) = length (rows df).
Proof. symmetry. eapply Forall2_length, coerce_numeric_rows. Qed.

Lemma coerce_numeric_frame (df : DataFrame) : numeric_frame (Anomaly.coerce_numeric df).
Proof.
  split.
  - intros c Hc. apply coerce_numeric_columns. by right.
  - eapply Forall2_Forall_r; [apply coerce_numeric_rows|].
    apply Forall_forall. intros r _ r' [_ Hc] c Hin.
    rewrite Hc, bool_decide_eq_true_2 by done. apply coerced_num.
Qed.
End Numeric.

Lemma series_mean_num (s : list scalar) :
  s ≠ [] → Forall (λ v, ∃ q, v = Num q) s → ∃ a, series_mean s = Ok (Num a).
Proof.
  intros Hne Hall. unfold series_mean.
  assert (existsb is_str s = false) as ->.
  { clear Hne. induction Hall as [|v s [q ->] _ IH]; [done|]. simpl. apply IH. }
  destruct s as [|v s]; [done|]. apply Forall_cons in Hall as [[q ->] _].
  simpl. by eexists.
Qed.

Lemma avg_daily_num (df : DataFrame) :
  numeric_frame df → ∃ a, Anomaly.avg_daily_of df = Ok (Num a).
Proof.
  intros [Hcols Hrows]. unfold Anomaly.avg_daily_of, get_column.
  rewrite bool_decide_eq_true_2 by (apply Hcols; compute_done). simpl.
  destruct (rows df) as [|r rs] eqn:Hr; [by eexists|].
  change (∃ a, series_mean ((λ r, cell (cells r) "total_daily_sum") <$> (r :: rs)) = Ok (Num a)).
  apply series_mean_num; [done|].
  apply Forall_fmap. eapply Forall_impl; [exact Hrows|].
  intros r' Hn. simpl. apply Hn. compute_done.
Qed.

Lemma getitem_numeric cols r c :
  (∀ c, c ∈ numeric_cols → c ∈ cols) → numeric_row r → c ∈ numeric_cols →
  ∃ q, getitem cols r c = Ok (Num q) ∧ cell (cells r) c = Num q.
Proof.
  intros Hcols Hr Hc. destruct (Hr c Hc) as [q Hq]. exists q.
  unfold getitem. by rewrite bool_decide_eq_true_2, Hq by auto.
Qed.

Lemma rule_spike_total cols r d todo :
  (∀ c, c ∈ numeric_cols → c ∈ cols) → numeric_row r →
  (∀ c, c ∈ todo → c ∈ numeric_cols) →
  ∃ alerts, Anomaly.rule_spike cols r d todo = Ok alerts.
Proof.
  intros Hcols Hr. induction todo as [|col todo IH]; intros Htodo; simpl; [by eexists|].
  destruct (getitem_numeric cols r col Hcols Hr) as (q & -> & _); [set_solver|].
  destruct IH as [rest ->]; [set_solver|]. simpl. by eexists.
Qed.

Lemma row_alerts_total cols a r :
  (∀ c, c ∈ numeric_cols → c ∈ cols) → numeric_row r →
  ∃ alerts, Anomaly.row_alerts cols (Num a) r = Ok alerts.
Proof.
  intros Hcols Hr. unfold Anomaly.row_alerts, Anomaly.rule_high, Anomaly.rule_zero.
  destruct (getitem_numeric cols r "total_daily_sum" Hcols Hr) as (q & -> & _); [compute_done|].
  destruct (rule_spike_total cols r (strftime_dmY (Date r)) Anomaly.sub_meter_cols Hcols Hr)
    as [a3 ->]; [intros c Hc; apply elem_of_app; by left|].
  simpl. destruct (Qltb 0 a); simpl; [destruct (Qltb _ q); simpl|];
    destruct (Qeq_bool q 0); simpl; by eexists.
Qed.

Lemma scan_rows_total cols a rs :
  (∀ c, c ∈ numeric_cols → c ∈ cols) → Forall numeric_row rs →
  ∃ alerts, Anomaly.scan_rows cols (Num a) rs = Ok alerts.
Proof.
  intros Hcols. induction 1 as [|r rs Hr _ [rest IH]]; simpl; [by eexists|].
  destruct (row_alerts_total cols a r Hcols Hr) as [here ->]. rewrite IH. simpl. by eexists.
Qed.

Lemma detect_total (df : DataFrame) :
  numeric_frame df → ∃ alerts, Anomaly.detect df = Ok alerts.
Proof.
  intros Hn. destruct (avg_daily_num df Hn) as [a Ha]. destruct Hn as [Hcols Hrows].
  unfold Anomaly.detect. rewrite Ha. simpl. by apply scan_rows_total.
Qed.

(** ** Running the anomaly handler *)

Lemma dropna_date_none rs dates : Forall (λ d, d = None) dates → dropna_date rs dates = [].
Proof.
  intros Hall. revert rs. induction Hall as [|d dates -> _ IH]; intros [|r rs]; simpl; auto.
Qed.

Section AnomalyRun.
Context `{Pandas} (w : World).

Lemma loaded_find bucket prefix latest_file raw :
  snapshot_loaded w bucket prefix latest_file raw →
  find_latest w bucket prefix = IO [S3ListObjectsV2 bucket prefix] (Ok (Some latest_file))
  ∧ load_csv w bucket latest_file = IO [S3GetObject bucket latest_file] (Ok raw).
Proof.
  intros (objs & latest & body & Hl & Hmax & -> & Hb & Hcsv). split.
  - unfold find_latest, list_objects_v2. cbn. rewrite Hl. cbn.
    destruct objs as [|o objs]; [done|]. cbn. cbn in Hmax. by injection Hmax as ->.
  - unfold load_csv, get_object. cbn. rewrite Hb. cbn. by rewrite Hcsv.
Qed.

Lemma anomaly_run latest_file raw alerts :
  snapshot_loaded w Anomaly.BUCKET_NAME Anomaly.S3_PREFIX latest_file raw →
  "Date" ∈ raw_columns raw →
  Anomaly.detect (Anomaly.coerce_numeric (parse_dates raw)) = Ok alerts →
  Anomaly.lambda_handler w =
    let calls := [S3ListObjectsV2 Anomaly.BUCKET_NAME Anomaly.S3_PREFIX;
                  S3GetObject Anomaly.BUCKET_NAME latest_file] in
    let done := Anomaly.processing_complete latest_file
                  (length (rows (parse_dates raw))) (length alerts) in
    match alerts with
    | [] => IO calls (Ok done)
    | _ =>
        IO (calls ++ [SnsPublish Anomaly.SNS_TOPIC_ARN (Anomaly.subject latest_file) alerts])
           (match sns_deliver w Anomaly.SNS_TOPIC_ARN (Anomaly.subject latest_file) alerts with
            | Ok _ => Ok done
            | Raise e => Ok {| statusCode := 500; body := Json (JObj [("error", JStr (str e))]) |}
            end)
    end.
Proof.
  intros [Hfind Hload]%loaded_find Hdate Hdet.
  assert (Anomaly.analyze raw = Ok (Anomaly.coerce_numeric (parse_dates raw), alerts)) as Hana.
  { unfold Anomaly.analyze. rewrite bool_decide_eq_true_2 by done. by rewrite Hdet. }
  unfold Anomaly.lambda_handler. rewrite Hfind. cbn. rewrite Hload. cbn. rewrite Hana.
  cbn -[Anomaly.coerce_numeric parse_dates]. rewrite coerce_numeric_length.
  destruct alerts as [|a alerts]; [done|]. cbn -[parse_dates].
  destruct (sns_deliver _ _ _ _); done.
Qed.

Lemma empty_dataset_detect (df : DataFrame) :
  rows df = [] →
  Anomaly.avg_daily_of (Anomaly.coerce_numeric df) = Ok (Num 0)
  ∧ Anomaly.detect (Anomaly.coerce_numeric df) = Ok [].
Proof.
  intros Hrows.
  assert (rows (Anomaly.coerce_numeric df) = []) as Hnil.
  { apply length_zero_iff_nil. by rewrite coerce_numeric_length, Hrows. }
  assert (Anomaly.avg_daily_of (Anomaly.coerce_numeric df) = Ok (Num 0)) as Havg.
  { unfold Anomaly.avg_daily_of, get_column.
    rewrite bool_decide_eq_true_2 by (apply coerce_numeric_columns; right; compute_done).
    by rewrite Hnil. }
  split; [done|]. unfold Anomaly.detect. by rewrite Havg, Hnil.
Qed.

End AnomalyRun.

(** ** The query path *)

Ltac same_guard :=
  match goal with
  | |- (if bool_decide ?P then _ else _) = (if bool_decide ?Q then _ else _) =>
      rewrite (bool_decide_ext P Q); [done|]
  end.

Lemma add_missing_fold (todo : list string) (df : DataFrame) :
  (∀ c, c ∈ columns (fold_left Billing.add_missing todo df) ↔ c ∈ columns df ∨ c ∈ todo)
  ∧ Forall2 (λ r r', Date r' = Date r ∧
               ∀ c, cell (cells r') c =
                    if bool_decide (c ∈ todo ∧ c ∉ columns df) then Num 0 else cell (cells r) c)
            (rows df) (rows (fold_left Billing.add_missing todo df)).
Proof.
  revert df. induction todo as [|col todo IH]; intros df; cbn [fold_left].
  - split; [set_solver|]. apply Forall_Forall2_diag, Forall_forall.
    intros r _. split; [done|]. intros c. rewrite bool_decide_eq_false_2; [done|set_solver].
  - destruct (IH (Billing.add_missing df col)) as [Hcols Hrows].
    destruct (decide (col ∈ columns df)) as [Hin|Hin].
    + assert (Billing.add_missing df col = df) as Hsame
        by (unfold Billing.add_missing; by rewrite bool_decide_eq_true_2).
      rewrite Hsame in *.
      split; [intros c; rewrite Hcols; set_solver|].
      eapply Forall2_impl; [exact Hrows|]. intros r r' [Hd Hc]. split; [done|].
      intros c. rewrite Hc. same_guard; set_solver.
    + assert (∃ df1, Billing.add_missing df col = df1
                ∧ columns df1 = (columns df ++ [col])%list
                ∧ rows df1 = (λ r, {| Date := Date r; cells := <[col := Num 0]> (cells r) |})
                               <$> rows df) as (df1 & Hdf1 & Hc1 & Hr1).
      { eexists. split; [done|]. unfold Billing.add_missing, set_column.
        by rewrite !bool_decide_eq_false_2. }
      rewrite Hdf1 in *. rewrite Hc1 in Hcols, Hrows. rewrite Hr1 in Hrows.
      split; [intros c; rewrite Hcols; set_solver|].
      rewrite Forall2_fmap_l in Hrows.
      eapply Forall2_impl; [exact Hrows|]. intros r r' [Hd Hc]. simpl in *. split; [done|].
      intros c. rewrite Hc, cell_insert.
      destruct (decide (c = col)) as [->|Hne].
      * rewrite (bool_decide_eq_true_2 (col = col)) by done.
        rewrite (bool_decide_eq_true_2 (col ∈ col :: todo ∧ _)) by set_solver.
        by case_bool_decide.
      * rewrite (bool_decide_eq_false_2 (c = col)) by done.
        same_guard; set_solver.
Qed.

Lemma cell_foldr_insert (g : string → scalar) (todo : list string) (m : gmap string scalar) c :
  cell (foldr (λ col acc, <[col := g col]> acc) m todo) c =
  if bool_decide (c ∈ todo) then g c else cell m c.
Proof.
  induction todo as [|col todo IH]; cbn [foldr].
  - rewrite bool_decide_eq_false_2; [done|set_solver].
  - rewrite cell_insert, IH. destruct (decide (c = col)) as [->|Hne].
    + rewrite !bool_decide_eq_true_2; [done|set_solver|done].
    + rewrite (bool_decide_eq_false_2 (c = col)) by done.
      same_guard; set_solver.
Qed.

Lemma fill_missing_spec (df : DataFrame) :
  ∃ df', Billing.fill_missing df = Ok df'
    ∧ (∀ c, c ∈ columns df' ↔ c ∈ columns df ∨ c ∈ Billing.billing_cols)
    ∧ Forall2 (filled_row (columns df)) (rows df) (rows df').
Proof.
  destruct (add_missing_fold Billing.billing_cols df) as [Hcols Hrows].
  unfold Billing.fill_missing, Billing.fillna_billing.
  destruct (list_find _ _) as [[i col]|] eqn:Hfind.
  { apply list_find_Some in Hfind as (Hi & Hcol & _). exfalso. apply Hcol, Hcols. right.
    by eapply list_elem_of_lookup_2. }
  eexists. split; [done|]. cbn [columns rows]. split; [done|].
  rewrite Forall2_fmap_r. eapply Forall2_impl; [exact Hrows|].
  intros r r' [Hd Hc]. split; [done|]. cbn [cells]. intros c.
  rewrite (cell_foldr_insert (λ col, fillna 0 (cell (cells r') col))).
  case_bool_decide as Hb; [|rewrite Hc, bool_decide_eq_false_2; [done|tauto]].
  rewrite Hc. unfold filled. destruct (decide (c ∈ columns df)).
  - rewrite bool_decide_eq_false_2 by tauto. by rewrite bool_decide_eq_true_2.
  - rewrite bool_decide_eq_true_2 by tauto. by rewrite bool_decide_eq_false_2.
Qed.

Lemma record_json_filled cols r r' :
  filled_row cols r r' → Billing.record_json r' = monthly_record cols r.
Proof.
  intros [Hd Hc]. unfold Billing.record_json, monthly_record, Billing.billing_cols.
  cbn [fmap list_fmap]. rewrite Hd, !Hc. done.
Qed.

Lemma Forall2_filter_fmap {A B C} (P : A → Prop) (Q : B → Prop)
    `{∀ a, Decision (P a)} `{∀ b, Decision (Q b)} (f : A → C) (g : B → C) l l' :
  Forall2 (λ a b, (P a ↔ Q b) ∧ f a = g b) l l' →
  f <$> filter P l = g <$> filter Q l'.
Proof.
  induction 1 as [|a b l l' [Hiff Hfg] _ IH]; [done|].
  rewrite !filter_cons. destruct (decide (P a)) as [Hp|Hp].
  - rewrite decide_True by tauto. cbn. by rewrite Hfg, IH.
  - rewrite decide_False by tauto. done.
Qed.

Lemma query_ok (month : string) (df : DataFrame) :
  "Date" ∈ columns df →
  filter (λ r, strftime_Ym (Date r) = month) (rows df) ≠ [] →
  Billing.query month true df =
    Ok {| statusCode := 200;
          body := Json (JArr (monthly_record (columns df)
                                <$> filter (λ r, strftime_Ym (Date r) = month) (rows df))) |}.
Proof.
  intros Hdate Hne. unfold Billing.query.
  destruct (rows df) as [|r0 rs] eqn:Hrows; [done|]. rewrite <- Hrows in *.
  destruct (fill_missing_spec df) as (df' & -> & Hcols & Hfilled).
  cbn [mbind result_bind Billing.dt_accessor].
  assert (Billing.record_json <$> filter (λ r, strftime_Ym (Date r) = month) (rows df')
          = monthly_record (columns df) <$> filter (λ r, strftime_Ym (Date r) = month) (rows df))
    as Hrec.
  { symmetry. apply Forall2_filter_fmap. eapply Forall2_impl; [exact Hfilled|].
    intros r r' Hrr'. split; [destruct Hrr' as [-> _]; done|].
    symmetry. by apply record_json_filled. }
  destruct (filter _ (rows df')) as [|m ms] eqn:Hmonthly.
  { exfalso. apply Hne. apply fmap_nil_inv with (f := monthly_record (columns df)).
    by rewrite <- Hrec. }
  unfold Billing.to_json.
  destruct (list_find _ _) as [[i col]|] eqn:Hfind.
  { apply list_find_Some in Hfind as (Hi & Hcol & _). exfalso. apply Hcol, Hcols.
    apply list_elem_of_lookup_2 in Hi. apply elem_of_cons in Hi as [->|Hi]; [by left|by right]. }
  cbn [mbind result_bind]. by rewrite Hrec.
Qed.

Lemma query_not_found (month : string) (df : DataFrame) :
  rows df ≠ [] →
  filter (λ r, strftime_Ym (Date r) = month) (rows df) = [] →
  Billing.query month true df =
    Ok {| statusCode := 404;
          body := Billing.error_body ("No billing data found for month " ++ month) |}.
Proof.
  intros Hne Hnone. unfold Billing.query.
  destruct (rows df) as [|r0 rs] eqn:Hrows; [done|]. rewrite <- Hrows in *.
  destruct (fill_missing_spec df) as (df' & -> & _ & Hfilled).
  cbn [mbind result_bind Billing.dt_accessor].
  assert (filter (λ r, strftime_Ym (Date r) = month) (rows df') = []) as ->; [|done].
  apply (fmap_nil_inv Date).
  rewrite <- (Forall2_filter_fmap (λ r : Row, strftime_Ym (Date r) = month)
               (λ r : Row, strftime_Ym (Date r) = month) Date Date (rows df) (rows df')).
  - by rewrite Hnone.
  - eapply Forall2_impl; [exact Hfilled|]. by intros r r' [-> _].
Qed.

Lemma query_no_dates (month : string) (dt : bool) (df : DataFrame) :
  rows df = [] →
  Billing.query month dt df =
    Ok {| statusCode := 500; body := Billing.error_body "No valid dates found in CSV" |}.
Proof. intros Hrows. unfold Billing.query. by rewrite Hrows. Qed.

Lemma query_no_accessor (month : string) (df : DataFrame) :
  rows df ≠ [] →
  Billing.query month false df =
    Raise (Exception "AttributeError" "Can only use .dt accessor with datetimelike values").
Proof.
  intros Hne. unfold Billing.query. destruct (rows df) as [|r0 rs]; [done|].
  by destruct (fill_missing_spec df) as (df' & -> & _).
Qed.

(** ** Running the query handler *)

Lemma query_shape month dt df r : Billing.query month dt df = Ok r → billing_response r.
Proof.
  unfold Billing.query. destruct (rows df); [intros [= <-]; constructor|].
  intros (df' & _ & Hq)%bind_Ok. destruct dt; [|done]. cbn [mbind result_bind Billing.dt_accessor] in Hq.
  destruct (filter _ _); [injection Hq as <-; constructor|].
  apply bind_Ok in Hq as (records & Hj & [= <-]).
  unfold Billing.to_json in Hj. destruct (list_find _ _) as [[]|]; [done|].
  injection Hj as <-. constructor.
Qed.

Section BillingRun.
Context `{Pandas} (w : World).

Lemma billing_run event month latest_file raw :
  Billing.month_param event = Some month → month ≠ "" →
  snapshot_loaded w Billing.BUCKET_NAME Billing.S3_PREFIX latest_file raw →
  Billing.lambda_handler w event =
    IO [S3ListObjectsV2 Billing.BUCKET_NAME Billing.S3_PREFIX;
        S3GetObject Billing.BUCKET_NAME latest_file]
       (if bool_decide ("Date" ∈ raw_columns raw) then
          match Billing.query month (datetimelike (raw_column raw "Date")) (parse_dates raw) with
          | Ok r => Ok r
          | Raise e => outcome (Billing.on_error e)
          end
        else Ok {| statusCode := 500; body := Billing.error_body "CSV missing 'Date' column" |}).
Proof.
  intros Hm Hne [Hfind Hload]%loaded_find.
  unfold Billing.lambda_handler. rewrite Hm. destruct month as [|c month]; [done|].
  rewrite Hfind. cbn. rewrite Hload. cbn -[parse_dates raw_column].
  case_bool_decide; [|done]. cbn -[parse_dates raw_column].
  destruct (Billing.query _ _ _); done.
Qed.

Lemma billing_shape event : ∃ r, outcome (Billing.lambda_handler w event) = Ok r ∧ billing_response r.
Proof.
  unfold Billing.lambda_handler.
  destruct (Billing.month_param event) as [[|c month]|] eqn:Hm;
    [eexists; split; [done|constructor]| |eexists; split; [done|constructor]].
  destruct (s3_listing w Billing.BUCKET_NAME Billing.S3_PREFIX) as [objs|e] eqn:Hl.
  2:{ rewrite (find_latest_raise _ _ _ _ Hl). eexists. split; [done|constructor]. }
  destruct objs as [|o objs].
  { rewrite (find_latest_none _ _ _ Hl). eexists. split; [done|constructor]. }
  destruct (find_latest_some w _ _ (o :: objs) Hl) as (x & _ & _ & ->); [done|]. cbn.
  unfold load_csv, get_object. cbn.
  destruct (s3_body w _ _) as [body|e]; cbn; [|eexists; split; [done|constructor]].
  destruct (read_csv body) as [raw|e]; cbn -[parse_dates raw_column];
    [|eexists; split; [done|constructor]].
  case_bool_decide; cbn -[parse_dates raw_column]; [|eexists; split; [done|constructor]].
  destruct (Billing.query _ _ _) as [r|e] eqn:Hq; cbn; eexists; (split; [done|]).
  - by eapply query_shape.
  - constructor.
Qed.

Lemma anomaly_shape : ∃ r, outcome (Anomaly.lambda_handler w) = Ok r ∧ anomaly_response r.
Proof.
  unfold Anomaly.lambda_handler.
  destruct (s3_listing w Anomaly.BUCKET_NAME Anomaly.S3_PREFIX) as [objs|e] eqn:Hl.
  2:{ rewrite (find_latest_raise _ _ _ _ Hl). eexists. split; [done|constructor]. }
  destruct objs as [|o objs].
  { rewrite (find_latest_none _ _ _ Hl). eexists. split; [done|constructor]. }
  destruct (find_latest_some w _ _ (o :: objs) Hl) as (x & _ & _ & ->); [done|]. cbn.
  unfold load_csv, get_object. cbn.
  destruct (s3_body w _ _) as [body|e]; cbn; [|eexists; split; [done|constructor]].
  destruct (read_csv body) as [raw|e]; cbn -[Anomaly.analyze]; [|eexists; split; [done|constructor]].
  destruct (Anomaly.analyze raw) as [[df alerts]|e]; cbn; [|eexists; split; [done|constructor]].
  destruct alerts as [|a alerts]; cbn; [eexists; split; [done|constructor]|].
  destruct (sns_deliver w _ _ _); cbn; eexists; (split; [done|constructor]).
Qed.
End BillingRun.

(** * The claims *)

(** The closed examples below run on the sample pandas. *)
#[local] Existing Instance Sample.pandas.

Lemma sample_loaded (bucket prefix : string) (raw : RawFrame) (sns : result unit) :
  snapshot_loaded (Sample.world Sample.listing (Ok raw) sns) bucket prefix Sample.latest_key raw.
Proof. exists Sample.listing, {| Key := Sample.latest_key; LastModified := 300 |}, raw. done. Qed.

(** ** C1: coercion of unparsable numeric cells *)

(** C1, as the code has it.  Both paths keep every row of the parsed frame,
    in order and with its date.  On the anomaly path a text cell of a known
    numeric column that does not parse as a number becomes 0.  On the query
    path only a missing cell of a billing column becomes 0: a text cell
    stays as it is, whether it parses as a number or not, and a number
    stays the number it is. *)
Theorem numeric_cells_coerced `{Pandas} (df : DataFrame) (i : nat) (r : Row) :
  rows df !! i = Some r →
  (length (rows (Anomaly.coerce_numeric df)) = length (rows df)
   ∧ ∃ r', rows (Anomaly.coerce_numeric df) !! i = Some r' ∧ Date r' = Date r ∧
       ∀ col s, col ∈ numeric_cols → col ∈ columns df →
         cell (cells r) col = Str s → parse_float s = None →
         cell (cells r') col = Num 0)
  ∧ (∃ df' r', Billing.fill_missing df = Ok df'
       ∧ length (rows df') = length (rows df)
       ∧ rows df' !! i = Some r' ∧ Date r' = Date r ∧
       ∀ col, col ∈ Billing.billing_cols → col ∈ columns df →
         (cell (cells r) col = NaN → cell (cells r') col = Num 0)
         ∧ (∀ s, cell (cells r) col = Str s → cell (cells r') col = Str s)
         ∧ (∀ q, cell (cells r) col = Num q → cell (cells r') col = Num q)).
Proof.
  intros Hi. split.
  - split; [apply coerce_numeric_length|].
    destruct (Forall2_lookup_l _ _ _ _ _ (coerce_numeric_rows df) Hi) as (r' & Hi' & Hd & Hc).
    exists r'. repeat split; [done..|].
    intros col s Hcol Hin Hs Hparse.
    rewrite Hc, bool_decide_eq_true_2 by done. unfold coerced, to_numeric.
    by rewrite bool_decide_eq_true_2, Hs, Hparse by done.
  - destruct (fill_missing_spec df) as (df' & Hfill & _ & Hrows).
    destruct (Forall2_lookup_l _ _ _ _ _ Hrows Hi) as (r' & Hi' & Hd & Hc).
    exists df', r'. split; [done|]. split; [symmetry; by eapply Forall2_length|].
    split; [done|]. split; [done|]. intros col Hcol Hin.
    assert (cell (cells r') col = fillna 0 (cell (cells r) col)) as Hcell.
    { rewrite Hc, bool_decide_eq_true_2 by done. unfold filled.
      by rewrite bool_decide_eq_true_2 by done. }
    split; [|split].
    + intros Hnan. by rewrite Hcell, Hnan.
    + intros s Hs. by rewrite Hcell, Hs.
    + intros q Hq. by rewrite Hcell, Hq.
Qed.

Lemma numeric_cells_coerced_witness :
  let df := parse_dates Sample.garbled in
  (∃ r', rows (Anomaly.coerce_numeric df) !! 1%nat = Some r'
         ∧ cell (cells r') "total_daily_sum" = Num 0)
  ∧ (∃ df' r', Billing.fill_missing df = Ok df' ∧ rows df' !! 1%nat = Some r'
         ∧ cell (cells r') "total_daily_sum" = Str "abc").
Proof.
  intros df.
  assert (∃ r, rows df !! 1%nat = Some r ∧ cell (cells r) "total_daily_sum" = Str "abc")
    as (r & Hr & Hcell) by (vm_compute; eexists; split; reflexivity).
  destruct (numeric_cells_coerced df 1 r Hr)
    as [[_ (r1 & Hr1 & _ & Hzero)] (df' & r2 & Hfill & _ & Hr2 & _ & Hkeep)].
  split.
  - exists r1. split; [done|].
    apply (Hzero "total_daily_sum" "abc"); [compute_done|compute_done|done|reflexivity].
  - exists df', r2. repeat split; [done..|].
    destruct (Hkeep "total_daily_sum") as (_ & Htext & _); [compute_done|compute_done|].
    exact (Htext "abc" Hcell).
Defined.

(** C1 as stated fails on the query path: the text [abc] in the daily-sum
    column is not a number, and the response still carries it. *)
Lemma query_keeps_unparsable_text :
  parse_float "abc" = None
  ∧ ∃ first fields last,
      outcome (Billing.lambda_handler
                 (Sample.world Sample.listing (Ok Sample.garbled) (Ok ())) Sample.october)
      = Ok {| statusCode := 200; body := Json (JArr [first; JObj fields; last]) |}
      ∧ fields !! 5%nat = Some ("total_daily_sum", JStr "abc").
Proof. split; [reflexivity|]. vm_compute. do 3 eexists. split; reflexivity. Qed.

(** ** C2: the rules of one record *)

Lemma rule_parts_bounds cols avg row a1 a2 a3 :
  Anomaly.rule_high cols avg row (strftime_dmY (Date row)) = Ok a1 →
  Anomaly.rule_zero cols row (strftime_dmY (Date row)) = Ok a2 →
  Anomaly.rule_spike cols row (strftime_dmY (Date row)) Anomaly.sub_meter_cols = Ok a3 →
  (length a1 ≤ 1)%nat ∧ (length a2 ≤ 1)%nat ∧ (length a3 ≤ 3)%nat ∧ ¬ (a1 ≠ [] ∧ a2 ≠ []).
Proof.
  intros H1 H2 H3. apply rule_spike_length in H3. simpl in H3.
  destruct (rule_high_fires _ _ _ _ _ H1) as [->|(a & v & -> & Hv & Hpos & Hlim & ->)];
    destruct (rule_zero_fires _ _ _ _ H2) as [->|(v' & Hv' & Hzero & ->)];
    simpl; repeat split; try lia; try tauto.
  intros _. rewrite Hv in Hv'. injection Hv' as <-. rewrite Hzero in Hlim. lra.
Qed.

(** C2, as the code has it.  On every record of the coerced dataset each of
    the three rules is evaluated and appends its own alerts, in rule order:
    at most one high-consumption alert, at most one zero-consumption alert
    and at most three spike alerts.  The high-consumption and the
    zero-consumption rule never fire on the same record, so a record
    produces 0 to 4 alerts; the sample readings hold one record for each of
    0 alerts, high with three spikes, and zero with three spikes. *)
Theorem rules_per_record `{Pandas} (df0 : DataFrame) :
  let df := Anomaly.coerce_numeric df0 in
  (∃ avg, Anomaly.avg_daily_of df = Ok (Num avg) ∧
     ∀ row, row ∈ rows df →
       ∃ a1 a2 a3,
         Anomaly.rule_high (columns df) (Num avg) row (strftime_dmY (Date row)) = Ok a1 ∧
         Anomaly.rule_zero (columns df) row (strftime_dmY (Date row)) = Ok a2 ∧
         Anomaly.rule_spike (columns df) row (strftime_dmY (Date row)) Anomaly.sub_meter_cols
           = Ok a3 ∧
         Anomaly.row_alerts (columns df) (Num avg) row = Ok (a1 ++ a2 ++ a3)%list ∧
         (length a1 ≤ 1)%nat ∧ (length a2 ≤ 1)%nat ∧ (length a3 ≤ 3)%nat ∧
         ¬ (a1 ≠ [] ∧ a2 ≠ []) ∧
         (length (a1 ++ a2 ++ a3) ≤ 4)%nat)
  ∧ (let sample := Anomaly.coerce_numeric (H := Sample.pandas)
                      (parse_dates (H := Sample.pandas) Sample.readings) in
     let sm := SubMeteringSpike in
     Anomaly.avg_daily_of sample = Ok (Num (40 # 4)) ∧
     Anomaly.row_alerts (columns sample) (Num (40 # 4)) <$> rows sample =
       [ Ok [HighConsumption "01-10-2025" (Num 20) (Num (40 # 4));
             sm "01-10-2025" "total_Sub_metering_1" (Num 20000);
             sm "01-10-2025" "total_Sub_metering_2" (Num 20000);
             sm "01-10-2025" "total_Sub_metering_3" (Num 20000)];
         Ok [];
         Ok [ZeroConsumption "03-10-2025";
             sm "03-10-2025" "total_Sub_metering_1" (Num 20000);
             sm "03-10-2025" "total_Sub_metering_2" (Num 20000);
             sm "03-10-2025" "total_Sub_metering_3" (Num 20000)];
         Ok [] ]).
Proof.
  intros df. split; [|vm_compute; split; reflexivity].
  pose proof (coerce_numeric_frame df0) as Hn. fold df in Hn.
  destruct (avg_daily_num df Hn) as [avg Havg]. exists avg. split; [done|].
  intros row Hrow. destruct Hn as [Hcols Hrows].
  rewrite Forall_forall in Hrows. specialize (Hrows row Hrow).
  destruct (row_alerts_total (columns df) avg row Hcols Hrows) as [alerts Halerts].
  destruct (row_alerts_parts _ _ _ _ Halerts) as (a1 & a2 & a3 & H1 & H2 & H3 & ->).
  destruct (rule_parts_bounds _ _ _ _ _ _ H1 H2 H3) as (L1 & L2 & L3 & Hex).
  exists a1, a2, a3. repeat split; try done.
  by eapply row_alerts_length.
Qed.

Lemma rules_per_record_witness :
  let df := Anomaly.coerce_numeric (parse_dates Sample.readings) in
  ∃ avg row alerts,
    Anomaly.avg_daily_of df = Ok (Num avg) ∧ rows df !! 0%nat = Some row
    ∧ Anomaly.row_alerts (columns df) (Num avg) row = Ok alerts
    ∧ (length alerts ≤ 4)%nat.
Proof.
  intros df.
  destruct (rules_per_record (parse_dates Sample.readings)) as [(avg & Havg & Hrows) _].
  assert (∃ row, rows df !! 0%nat = Some row) as [row Hrow]
    by (vm_compute; eexists; reflexivity).
  destruct (Hrows row (list_elem_of_lookup_2 _ _ _ Hrow))
    as (a1 & a2 & a3 & _ & _ & _ & Halerts & _ & _ & _ & _ & Hlen).
  exists avg, row, (a1 ++ a2 ++ a3)%list.
  exact (conj Havg (conj Hrow (conj Halerts Hlen))).
Defined.

(** C2 as stated fails: no record makes all three rules fire, and no record
    yields five alerts, because a daily sum that is zero is never above
    one and a half times a positive average. *)
Lemma no_record_fires_all_three_rules :
  (¬ ∃ cols avg row alerts col,
       Anomaly.row_alerts cols avg row = Ok alerts
       ∧ fired_high alerts ∧ fired_zero alerts ∧ fired_spike col alerts)
  ∧ (¬ ∃ cols avg row alerts,
       Anomaly.row_alerts cols avg row = Ok alerts ∧ length alerts = 5%nat).
Proof.
  split.
  - intros (cols & avg & row & alerts & col & Hr & Hh & Hz & _).
    by apply (high_zero_exclusive _ _ _ _ Hr).
  - intros (cols & avg & row & alerts & Hr & Hlen).
    apply row_alerts_length in Hr. lia.
Qed.

(** ** C3: a failed dispatch *)

(** C3, as the code has it.  [sns.publish] is called inside the handler's
    only [try] block.  When the scan finds alerts and the publish call
    raises, the exception reaches [except Exception]: the response is the
    500 error response with the message of the failure, and the record and
    alert counts are not reported.  The publish call is made once. *)
Theorem dispatch_failure_is_error_response `{Pandas} (w : World)
    (latest_file : string) (raw : RawFrame) (alerts : list alert) (e : exn) :
  snapshot_loaded w Anomaly.BUCKET_NAME Anomaly.S3_PREFIX latest_file raw →
  "Date" ∈ raw_columns raw →
  Anomaly.detect (Anomaly.coerce_numeric (parse_dates raw)) = Ok alerts →
  alerts ≠ [] →
  sns_deliver w Anomaly.SNS_TOPIC_ARN (Anomaly.subject latest_file) alerts = Raise e →
  Anomaly.lambda_handler w =
    IO [S3ListObjectsV2 Anomaly.BUCKET_NAME Anomaly.S3_PREFIX;
        S3GetObject Anomaly.BUCKET_NAME latest_file;
        SnsPublish Anomaly.SNS_TOPIC_ARN (Anomaly.subject latest_file) alerts]
       (Ok {| statusCode := 500; body := Json (JObj [("error", JStr (str e))]) |}).
Proof.
  intros Hloaded Hdate Hdet Hne Hsns.
  rewrite (anomaly_run _ _ _ _ Hloaded Hdate Hdet). cbn -[parse_dates].
  destruct alerts; [done|]. by rewrite Hsns.
Qed.

Lemma dispatch_failure_is_error_response_witness :
  outcome (Anomaly.lambda_handler
             (Sample.world Sample.listing (Ok Sample.readings) (Raise Sample.delivery_failed)))
  = Ok {| statusCode := 500;
          body := Json (JObj [("error", JStr (str Sample.delivery_failed))]) |}.
Proof.
  erewrite (dispatch_failure_is_error_response _ Sample.latest_key Sample.readings _
              Sample.delivery_failed).
  - reflexivity.
  - apply sample_loaded.
  - compute_done.
  - vm_compute. reflexivity.
  - discriminate.
  - reflexivity.
Defined.

(** C3 as stated fails: the scan of the sample readings finds alerts, the
    delivery fails, and the caller gets the 500 error response instead of the
    detection result. *)
Lemma dispatch_failure_masks_detection :
  ∃ alerts,
    Anomaly.detect (Anomaly.coerce_numeric (parse_dates Sample.readings)) = Ok alerts
    ∧ alerts ≠ []
    ∧ ∃ r, outcome (Anomaly.lambda_handler
                      (Sample.world Sample.listing (Ok Sample.readings)
                                    (Raise Sample.delivery_failed))) = Ok r
           ∧ statusCode r = 500%Z
           ∧ body r = Json (JObj [("error", JStr (str Sample.delivery_failed))]).
Proof.
  eexists. split; [vm_compute; reflexivity|]. split; [discriminate|].
  eexists. split; [vm_compute; reflexivity|]. split; reflexivity.
Qed.

(** ** C4: the snapshot selected *)

Lemma find_latest_max `{Pandas} (w : World) (bucket prefix : string) objs x :
  s3_listing w bucket prefix = Ok objs → py_max LastModified objs = Ok x →
  find_latest w bucket prefix = IO [S3ListObjectsV2 bucket prefix] (Ok (Some (Key x))).
Proof.
  intros Hl Hmax. unfold find_latest, list_objects_v2. cbn. rewrite Hl. cbn.
  destruct objs as [|o objs]; [done|]. cbn. cbn in Hmax. by injection Hmax as ->.
Qed.

Lemma anomaly_selects `{Pandas} (w : World) objs x :
  s3_listing w Anomaly.BUCKET_NAME Anomaly.S3_PREFIX = Ok objs →
  py_max LastModified objs = Ok x →
  ∃ rest, trace (Anomaly.lambda_handler w) =
    S3ListObjectsV2 Anomaly.BUCKET_NAME Anomaly.S3_PREFIX
    :: S3GetObject Anomaly.BUCKET_NAME (Key x) :: rest.
Proof.
  intros Hl Hmax. unfold Anomaly.lambda_handler.
  match goal with |- context [trace (try_except ?m ?h)] =>
    destruct (trace_try_except m h) as [rest ->] end.
  rewrite trace_bind, (find_latest_max _ _ _ _ _ Hl Hmax). cbn. rewrite trace_bind.
  unfold load_csv at 1. rewrite trace_bind. cbn. eauto.
Qed.

Lemma billing_selects `{Pandas} (w : World) (event : Billing.Event) (month : string) objs x :
  Billing.month_param event = Some month → month ≠ "" →
  s3_listing w Billing.BUCKET_NAME Billing.S3_PREFIX = Ok objs →
  py_max LastModified objs = Ok x →
  ∃ rest, trace (Billing.lambda_handler w event) =
    S3ListObjectsV2 Billing.BUCKET_NAME Billing.S3_PREFIX
    :: S3GetObject Billing.BUCKET_NAME (Key x) :: rest.
Proof.
  intros Hm Hmne Hl Hmax. unfold Billing.lambda_handler.
  match goal with |- context [trace (try_except ?m ?h)] =>
    destruct (trace_try_except m h) as [rest ->] end.
  rewrite Hm. destruct month as [|c month]; [done|].
  rewrite trace_bind, (find_latest_max _ _ _ _ _ Hl Hmax). cbn. rewrite trace_bind.
  unfold load_csv at 1. rewrite trace_bind. cbn. eauto.
Qed.

(** C4.  On both handlers: when the listing is not empty the object fetched
    is one of the listing whose [LastModified] is maximal over it; when the
    listing is empty the response is the 404 not-found response and no
    object is fetched. *)
Theorem latest_snapshot_selected `{Pandas} (w : World) (event : Billing.Event) (month : string) :
  Billing.month_param event = Some month → month ≠ "" →
  (∀ objs, s3_listing w Anomaly.BUCKET_NAME Anomaly.S3_PREFIX = Ok objs →
     (objs ≠ [] →
        ∃ x rest, x ∈ objs ∧ (∀ y, y ∈ objs → (LastModified y <= LastModified x)%Z) ∧
          trace (Anomaly.lambda_handler w) =
            S3ListObjectsV2 Anomaly.BUCKET_NAME Anomaly.S3_PREFIX
            :: S3GetObject Anomaly.BUCKET_NAME (Key x) :: rest)
     ∧ (objs = [] →
        Anomaly.lambda_handler w =
          IO [S3ListObjectsV2 Anomaly.BUCKET_NAME Anomaly.S3_PREFIX]
             (Ok {| statusCode := 404; body := Text "No billing files found in S3" |})))
  ∧ (∀ objs, s3_listing w Billing.BUCKET_NAME Billing.S3_PREFIX = Ok objs →
     (objs ≠ [] →
        ∃ x rest, x ∈ objs ∧ (∀ y, y ∈ objs → (LastModified y <= LastModified x)%Z) ∧
          trace (Billing.lambda_handler w event) =
            S3ListObjectsV2 Billing.BUCKET_NAME Billing.S3_PREFIX
            :: S3GetObject Billing.BUCKET_NAME (Key x) :: rest)
     ∧ (objs = [] →
        Billing.lambda_handler w event =
          IO [S3ListObjectsV2 Billing.BUCKET_NAME Billing.S3_PREFIX]
             (Ok {| statusCode := 404;
                    body := Json (JObj [("error", JStr "No billing files found in S3")]) |}))).
Proof.
  intros Hm Hmne. split; intros objs Hl; split.
  - intros Hne. destruct (py_max_first_maximal LastModified objs Hne) as (x & Hmax & Hfirst).
    destruct (anomaly_selects w objs x Hl Hmax) as [rest Htrace].
    exists x, rest. split; [by eapply first_maximal_elem|]. split; [|done].
    by apply first_maximal_max.
  - intros ->. unfold Anomaly.lambda_handler. by rewrite (find_latest_none _ _ _ Hl).
  - intros Hne. destruct (py_max_first_maximal LastModified objs Hne) as (x & Hmax & Hfirst).
    destruct (billing_selects w event month objs x Hm Hmne Hl Hmax) as [rest Htrace].
    exists x, rest. split; [by eapply first_maximal_elem|]. split; [|done].
    by apply first_maximal_max.
  - intros ->. unfold Billing.lambda_handler. rewrite Hm.
    destruct month; [done|]. by rewrite (find_latest_none _ _ _ Hl).
Qed.

Lemma latest_snapshot_selected_witness :
  ∃ x rest, x ∈ Sample.listing
    ∧ (∀ y, y ∈ Sample.listing → (LastModified y <= LastModified x)%Z)
    ∧ trace (Billing.lambda_handler
               (Sample.world Sample.listing (Ok Sample.readings) (Ok ())) Sample.october) =
        S3ListObjectsV2 Billing.BUCKET_NAME Billing.S3_PREFIX
        :: S3GetObject Billing.BUCKET_NAME (Key x) :: rest.
Proof.
  apply (latest_snapshot_selected
           (Sample.world Sample.listing (Ok Sample.readings) (Ok ())) Sample.october "2025-10");
    [reflexivity|discriminate|reflexivity|discriminate].
Defined.

(** ** C5: strict thresholds *)

Lemma high_needs_above cols avg row alerts v :
  Anomaly.row_alerts cols (Num avg) row = Ok alerts →
  cell (cells row) "total_daily_sum" = Num v → (v == (3 # 2) * avg)%Q →
  ¬ fired_high alerts.
Proof.
  intros (a1 & a2 & a3 & H1 & H2 & H3 & ->)%row_alerts_parts Hv Heq (d & x & y & Hin).
  apply elem_of_app in Hin as [Hin|Hin].
  - destruct (rule_high_fires _ _ _ _ _ H1) as [->|(a & x' & [= <-] & Hx & _ & Hlim & _)];
      [by apply elem_of_nil in Hin|].
    unfold getitem in Hx. case_bool_decide; [|done]. rewrite Hv in Hx.
    injection Hx as <-. rewrite Heq in Hlim. lra.
  - apply elem_of_app in Hin as [Hin|Hin].
    + destruct (rule_zero_fires _ _ _ _ H2) as [->|(? & _ & _ & ->)];
        [by apply elem_of_nil in Hin|by apply list_elem_of_singleton in Hin].
    + by destruct (rule_spike_fires _ _ _ _ _ _ H3 Hin) as (? & ? & _ & _ & _ & ?).
Qed.

Lemma spike_needs_above cols avg row alerts col v :
  Anomaly.row_alerts cols avg row = Ok alerts →
  cell (cells row) col = Num v → (v == 10000)%Q →
  ¬ fired_spike col alerts.
Proof.
  intros (a1 & a2 & a3 & H1 & H2 & H3 & ->)%row_alerts_parts Hv Heq (d & x & Hin).
  apply elem_of_app in Hin as [Hin|Hin].
  - destruct (rule_high_fires _ _ _ _ _ H1) as [->|(? & ? & _ & _ & _ & _ & ->)];
      [by apply elem_of_nil in Hin|by apply list_elem_of_singleton in Hin].
  - apply elem_of_app in Hin as [Hin|Hin].
    + destruct (rule_zero_fires _ _ _ _ H2) as [->|(? & _ & _ & ->)];
        [by apply elem_of_nil in Hin|by apply list_elem_of_singleton in Hin].
    + destruct (rule_spike_fires _ _ _ _ _ _ H3 Hin) as (c & x' & _ & Hx & Hlim & [= _ <- _]).
      unfold getitem in Hx. case_bool_decide; [|done]. rewrite Hv in Hx.
      injection Hx as <-. rewrite Heq in Hlim. lra.
Qed.

(** C5.  On every record of the coerced dataset the rules are evaluated
    without error, and: a record whose daily sum equals one and a half times
    the average daily sum gets no high-consumption alert; a sub-metering
    value equal to 10000 gets no spike alert. *)
Theorem thresholds_are_strict `{Pandas} (df0 : DataFrame) :
  let df := Anomaly.coerce_numeric df0 in
  ∃ avg, Anomaly.avg_daily_of df = Ok (Num avg) ∧
    ∀ row, row ∈ rows df →
      ∃ alerts, Anomaly.row_alerts (columns df) (Num avg) row = Ok alerts ∧
        (∀ v, cell (cells row) "total_daily_sum" = Num v → (v == (3 # 2) * avg)%Q →
              ¬ fired_high alerts) ∧
        (∀ col v, col ∈ Anomaly.sub_meter_cols → cell (cells row) col = Num v →
              (v == 10000)%Q → ¬ fired_spike col alerts).
Proof.
  intros df. pose proof (coerce_numeric_frame df0) as Hn. fold df in Hn.
  destruct (avg_daily_num df Hn) as [avg Havg]. exists avg. split; [done|].
  intros row Hrow. destruct Hn as [Hcols Hrows].
  rewrite Forall_forall in Hrows. specialize (Hrows row Hrow).
  destruct (row_alerts_total (columns df) avg row Hcols Hrows) as [alerts Halerts].
  exists alerts. split; [done|]. split.
  - intros v Hv Heq. by eapply high_needs_above.
  - intros col v _ Hv Heq. by eapply spike_needs_above.
Qed.

Lemma thresholds_are_strict_witness :
  let df := Anomaly.coerce_numeric (parse_dates Sample.readings) in
  ∃ avg row alerts,
    Anomaly.avg_daily_of df = Ok (Num avg) ∧ rows df !! 1%nat = Some row
    ∧ cell (cells row) "total_daily_sum" = Num 15
    ∧ cell (cells row) "total_Sub_metering_1" = Num 10000
    ∧ Anomaly.row_alerts (columns df) (Num avg) row = Ok alerts
    ∧ ¬ fired_high alerts ∧ ¬ fired_spike "total_Sub_metering_1" alerts.
Proof.
  intros df.
  destruct (thresholds_are_strict (parse_dates Sample.readings)) as (avg & Havg & Hrows).
  fold df in Havg, Hrows.
  assert (∃ row, rows df !! 1%nat = Some row
                 ∧ cell (cells row) "total_daily_sum" = Num 15
                 ∧ cell (cells row) "total_Sub_metering_1" = Num 10000)
    as (row & Hrow & Hsum & Hsm) by (vm_compute; eexists; repeat split; reflexivity).
  destruct (Hrows row (list_elem_of_lookup_2 _ _ _ Hrow)) as (alerts & Halerts & Hhigh & Hspike).
  exists avg, row, alerts.
  split; [exact Havg|]. split; [exact Hrow|]. split; [exact Hsum|]. split; [exact Hsm|].
  split; [exact Halerts|]. split.
  - apply (Hhigh 15%Q Hsum).
    assert (Ok (Num avg) = Ok (Num (40 # 4))) as [= ->] by (rewrite <- Havg; vm_compute; reflexivity).
    reflexivity.
  - apply (Hspike "total_Sub_metering_1" 10000%Q); [compute_done|done|reflexivity].
Defined.

(** ** C6: the empty dataset on the anomaly path *)

(** C6.  When no row is left after the date parsing, the average daily sum
    is 0, detection yields no alert, and the handler returns the success
    response with 0 records and 0 alerts after exactly two calls, the
    listing and the download: nothing is published. *)
Theorem empty_dataset_scan `{Pandas} (w : World) (latest_file : string) (raw : RawFrame) :
  snapshot_loaded w Anomaly.BUCKET_NAME Anomaly.S3_PREFIX latest_file raw →
  "Date" ∈ raw_columns raw →
  rows (parse_dates raw) = [] →
  let df := Anomaly.coerce_numeric (parse_dates raw) in
  rows df = []
  ∧ Anomaly.avg_daily_of df = Ok (Num 0)
  ∧ Anomaly.detect df = Ok []
  ∧ Anomaly.lambda_handler w =
      IO [S3ListObjectsV2 Anomaly.BUCKET_NAME Anomaly.S3_PREFIX;
          S3GetObject Anomaly.BUCKET_NAME latest_file]
         (Ok {| statusCode := 200;
                body := Json (JObj [("message", JStr "Processing complete.");
                                    ("file_processed", JStr latest_file);
                                    ("records_analyzed", JInt 0);
                                    ("alerts_found", JInt 0)]) |}).
Proof.
  intros Hloaded Hdate Hrows df.
  destruct (empty_dataset_detect (parse_dates raw) Hrows) as [Havg Hdet].
  split; [|repeat split; [done..|]].
  - apply length_zero_iff_nil. unfold df. by rewrite coerce_numeric_length, Hrows.
  - rewrite (anomaly_run _ _ _ _ Hloaded Hdate Hdet). cbn -[parse_dates]. by rewrite Hrows.
Qed.

Lemma empty_dataset_scan_witness :
  Anomaly.lambda_handler (Sample.world Sample.listing (Ok Sample.undated) (Ok ())) =
    IO [S3ListObjectsV2 Anomaly.BUCKET_NAME Anomaly.S3_PREFIX;
        S3GetObject Anomaly.BUCKET_NAME Sample.latest_key]
       (Ok (Anomaly.processing_complete Sample.latest_key 0 0)).
Proof.
  apply (empty_dataset_scan _ Sample.latest_key Sample.undated);
    [apply sample_loaded|compute_done|reflexivity].
Defined.

(** ** C7: no valid date, on the two paths *)

(** C7.  For a file none of whose dates parses, the anomaly handler returns
    its success response for an empty dataset, and the query handler
    returns status 500 with the error [No valid dates found in CSV],
    whatever the month asked for. *)
Theorem no_valid_dates_asymmetry `{Pandas} (w : World) (event : Billing.Event)
    (month scanned queried : string) (raw : RawFrame) :
  "Date" ∈ raw_columns raw →
  no_valid_dates raw →
  (snapshot_loaded w Anomaly.BUCKET_NAME Anomaly.S3_PREFIX scanned raw →
   Anomaly.lambda_handler w =
     IO [S3ListObjectsV2 Anomaly.BUCKET_NAME Anomaly.S3_PREFIX;
         S3GetObject Anomaly.BUCKET_NAME scanned]
        (Ok (Anomaly.processing_complete scanned 0 0)))
  ∧ (Billing.month_param event = Some month → month ≠ "" →
     snapshot_loaded w Billing.BUCKET_NAME Billing.S3_PREFIX queried raw →
     Billing.lambda_handler w event =
       IO [S3ListObjectsV2 Billing.BUCKET_NAME Billing.S3_PREFIX;
           S3GetObject Billing.BUCKET_NAME queried]
          (Ok {| statusCode := 500;
                 body := Json (JObj [("error", JStr "No valid dates found in CSV")]) |})).
Proof.
  intros Hdate Hnone.
  assert (rows (parse_dates raw) = []) as Hrows by (by apply dropna_date_none).
  split.
  - intros Hloaded. destruct (empty_dataset_detect (parse_dates raw) Hrows) as [_ Hdet].
    rewrite (anomaly_run _ _ _ _ Hloaded Hdate Hdet). cbn -[parse_dates]. by rewrite Hrows.
  - intros Hm Hmne Hloaded. rewrite (billing_run _ _ _ _ _ Hm Hmne Hloaded).
    rewrite bool_decide_eq_true_2 by done. unfold Billing.query. by rewrite Hrows.
Qed.

Lemma no_valid_dates_asymmetry_witness :
  let w := Sample.world Sample.listing (Ok Sample.undated) (Ok ()) in
  (∃ r, outcome (Anomaly.lambda_handler w) = Ok r ∧ statusCode r = 200%Z)
  ∧ (∃ r, outcome (Billing.lambda_handler w Sample.october) = Ok r ∧ statusCode r = 500%Z).
Proof.
  intros w.
  destruct (no_valid_dates_asymmetry w Sample.october "2025-10" Sample.latest_key
              Sample.latest_key Sample.undated) as [Ha Hb];
    [compute_done|repeat constructor|].
  split; eexists.
  - rewrite Ha by apply sample_loaded. split; reflexivity.
  - rewrite Hb; [split; reflexivity|reflexivity|discriminate|apply sample_loaded].
Defined.

(** ** C8: status codes and error bodies *)

(** C8, as the code has it.  Every invocation ends in a response, never in
    an exception.  The query handler answers 200 with the records, 400 or
    404 with [{error}], and 500 both for a schema error, with [{error}], and
    for a caught exception, with [{error, details}].  The anomaly handler
    answers 200, 404 with a plain text body, and 500 with [{error}] for a
    missing date column and for every other exception alike.  So a schema
    error and an internal error share the status code 500 on both entry
    points.  The other kinds keep their codes: a missing or empty month is
    400, an empty listing is 404 on both entry points, and a month without
    records, in a file with dated records and a datetime Date column, is 404. *)
Theorem status_taxonomy `{Pandas} (w : World) (event : Billing.Event) :
  (∃ r, outcome (Billing.lambda_handler w event) = Ok r ∧ billing_response r)
  ∧ (∃ r, outcome (Anomaly.lambda_handler w) = Ok r ∧ anomaly_response r)
  ∧ (∀ month latest_file raw,
       Billing.month_param event = Some month → month ≠ "" →
       snapshot_loaded w Billing.BUCKET_NAME Billing.S3_PREFIX latest_file raw →
       "Date" ∉ raw_columns raw →
       outcome (Billing.lambda_handler w event) =
         Ok {| statusCode := 500;
               body := Json (JObj [("error", JStr "CSV missing 'Date' column")]) |})
  ∧ (∀ month e,
       Billing.month_param event = Some month → month ≠ "" →
       s3_listing w Billing.BUCKET_NAME Billing.S3_PREFIX = Raise e →
       outcome (Billing.lambda_handler w event) =
         Ok {| statusCode := 500;
               body := Json (JObj [("error", JStr "Internal server error");
                                   ("details", JStr (str e))]) |})
  ∧ (∀ latest_file raw,
       snapshot_loaded w Anomaly.BUCKET_NAME Anomaly.S3_PREFIX latest_file raw →
       "Date" ∉ raw_columns raw →
       outcome (Anomaly.lambda_handler w) =
         Ok {| statusCode := 500;
               body := Json (JObj [("error",
                        JStr "CSV file is missing the required 'Date' column.")]) |})
  ∧ (∀ e,
       s3_listing w Anomaly.BUCKET_NAME Anomaly.S3_PREFIX = Raise e →
       outcome (Anomaly.lambda_handler w) =
         Ok {| statusCode := 500; body := Json (JObj [("error", JStr (str e))]) |})
  ∧ (Billing.month_param event = None ∨ Billing.month_param event = Some "" →
     Billing.lambda_handler w event =
       IO [] (Ok {| statusCode := 400;
                    body := Json (JObj [("error",
                             JStr "Month parameter is required, e.g., ?month=2025-10")]) |}))
  ∧ (∀ month,
       Billing.month_param event = Some month → month ≠ "" →
       s3_listing w Billing.BUCKET_NAME Billing.S3_PREFIX = Ok [] →
       outcome (Billing.lambda_handler w event) =
         Ok {| statusCode := 404;
               body := Json (JObj [("error", JStr "No billing files found in S3")]) |})
  ∧ (∀ month latest_file raw,
       Billing.month_param event = Some month → month ≠ "" →
       snapshot_loaded w Billing.BUCKET_NAME Billing.S3_PREFIX latest_file raw →
       "Date" ∈ raw_columns raw →
       datetimelike (raw_column raw "Date") = true →
       rows (parse_dates raw) ≠ [] →
       filter (λ r, strftime_Ym (Date r) = month) (rows (parse_dates raw)) = [] →
       outcome (Billing.lambda_handler w event) =
         Ok {| statusCode := 404;
               body := Json (JObj [("error",
                        JStr ("No billing data found for month " ++ month))]) |})
  ∧ (∀ month latest_file raw,
       Billing.month_param event = Some month → month ≠ "" →
       snapshot_loaded w Billing.BUCKET_NAME Billing.S3_PREFIX latest_file raw →
       "Date" ∈ raw_columns raw →
       datetimelike (raw_column raw "Date") = false →
       rows (parse_dates raw) ≠ [] →
       outcome (Billing.lambda_handler w event) = Ok no_dt_accessor)
  ∧ (s3_listing w Anomaly.BUCKET_NAME Anomaly.S3_PREFIX = Ok [] →
     outcome (Anomaly.lambda_handler w) =
       Ok {| statusCode := 404; body := Text "No billing files found in S3" |}).
Proof.
  split; [apply billing_shape|]. split; [apply anomaly_shape|].
  split; [|split; [|split; [|split; [|split; [|split; [|split; [|split]]]]]]].
  - intros month latest_file raw Hm Hmne Hloaded Hdate.
    rewrite (billing_run _ _ _ _ _ Hm Hmne Hloaded). cbn.
    by rewrite bool_decide_eq_false_2.
  - intros month e Hm Hmne Hl. unfold Billing.lambda_handler. rewrite Hm.
    destruct month; [done|]. by rewrite (find_latest_raise _ _ _ _ Hl).
  - intros latest_file raw [Hfind Hload]%loaded_find Hdate.
    unfold Anomaly.lambda_handler. rewrite Hfind. cbn. rewrite Hload. cbn.
    unfold Anomaly.analyze. by rewrite bool_decide_eq_false_2.
  - intros e Hl. unfold Anomaly.lambda_handler. by rewrite (find_latest_raise _ _ _ _ Hl).
  - unfold Billing.lambda_handler. by intros [-> | ->].
  - intros month Hm Hmne Hl. unfold Billing.lambda_handler. rewrite Hm.
    destruct month; [done|]. by rewrite (find_latest_none _ _ _ Hl).
  - intros month latest_file raw Hm Hmne Hloaded Hdate Hdt Hne Hnone.
    rewrite (billing_run _ _ _ _ _ Hm Hmne Hloaded).
    rewrite bool_decide_eq_true_2, Hdt by done.
    by rewrite (query_not_found month (parse_dates raw) Hne Hnone).
  - intros month latest_file raw Hm Hmne Hloaded Hdate Hdt Hne.
    rewrite (billing_run _ _ _ _ _ Hm Hmne Hloaded).
    rewrite bool_decide_eq_true_2, Hdt by done.
    by rewrite (query_no_accessor month (parse_dates raw) Hne).
  - intros Hl. unfold Anomaly.lambda_handler. by rewrite (find_latest_none _ _ _ Hl).
Qed.

Lemma status_taxonomy_witness :
  (∃ r, outcome (Billing.lambda_handler
                   (Sample.world Sample.listing (Ok Sample.dateless) (Ok ())) Sample.october)
        = Ok r ∧ billing_response r)
  ∧ outcome (Billing.lambda_handler
               (Sample.world Sample.listing (Ok Sample.dateless) (Ok ())) Sample.october) =
      Ok {| statusCode := 500;
            body := Json (JObj [("error", JStr "CSV missing 'Date' column")]) |}
  ∧ outcome (Billing.lambda_handler
               (Sample.world [] (Ok Sample.readings) (Ok ())) Sample.october) =
      Ok {| statusCode := 404;
            body := Json (JObj [("error", JStr "No billing files found in S3")]) |}.
Proof.
  destruct (status_taxonomy (Sample.world Sample.listing (Ok Sample.dateless) (Ok ()))
              Sample.october) as (Hshape & _ & Hschema & _).
  destruct (status_taxonomy (Sample.world [] (Ok Sample.readings) (Ok ()))
              Sample.october) as (_ & _ & _ & _ & _ & _ & _ & Hmissing & _).
  split; [exact Hshape|]. split.
  - apply (Hschema "2025-10" Sample.latest_key Sample.dateless);
      [reflexivity|discriminate|apply sample_loaded|compute_done].
  - apply (Hmissing "2025-10"); [reflexivity|discriminate|reflexivity].
Defined.

(** C8 as stated fails.  On the query path a file without the date column
    (a schema error) and a failed download (an internal error) both get
    status 500; and the not-found body of the anomaly path is a plain text,
    not an object with an [error] field. *)
Lemma schema_and_internal_errors_share_500 :
  let schema := Billing.lambda_handler
                  (Sample.world Sample.listing (Ok Sample.dateless) (Ok ())) Sample.october in
  let internal := Billing.lambda_handler
                    (Sample.world Sample.listing (Raise Sample.access_denied) (Ok ()))
                    Sample.october in
  let missing := Anomaly.lambda_handler (Sample.world [] (Ok Sample.readings) (Ok ())) in
  (∃ r1 r2, outcome schema = Ok r1 ∧ outcome internal = Ok r2
            ∧ statusCode r1 = 500%Z ∧ statusCode r2 = 500%Z)
  ∧ outcome missing = Ok {| statusCode := 404; body := Text "No billing files found in S3" |}.
Proof. split; [do 2 eexists; repeat split|]; reflexivity. Qed.

(** ** C9: the records of a monthly query *)

(** C9, as the code has it.  Let at least one parsed record print the
    requested month under ['%Y-%m'].  When pandas parsed the Date column to
    a datetime column, the response is 200 and its body is the list, in row
    order, of exactly those records.  When the parsed column is an object
    column (dates with mixed UTC offsets), [df['Date'].dt] raises and the
    response is the internal error, 500 with [details].  Each record has
    its date as [DD-MM-YYYY] first, then the eight billing fields in the
    order of [billing_cols]: the three sub-meterings,
    [avg_submetering_value], then the daily sum and the three charges; a
    missing value is 0. *)
Theorem monthly_query_records `{Pandas} (w : World) (event : Billing.Event)
    (month latest_file : string) (raw : RawFrame) :
  Billing.month_param event = Some month → month ≠ "" →
  snapshot_loaded w Billing.BUCKET_NAME Billing.S3_PREFIX latest_file raw →
  "Date" ∈ raw_columns raw →
  let df := parse_dates raw in
  let monthly := filter (λ r, strftime_Ym (Date r) = month) (rows df) in
  monthly ≠ [] →
  (datetimelike (raw_column raw "Date") = true →
   outcome (Billing.lambda_handler w event) =
     Ok {| statusCode := 200;
           body := Json (JArr (monthly_record (columns df) <$> monthly)) |})
  ∧ (datetimelike (raw_column raw "Date") = false →
     outcome (Billing.lambda_handler w event) = Ok no_dt_accessor)
  ∧ ∀ r, json_keys (monthly_record (columns df) r) =
         ["Date"; "total_Sub_metering_1"; "total_Sub_metering_2"; "total_Sub_metering_3";
          "avg_submetering_value"; "total_daily_sum";
          "peak_charge"; "offpeak_charge"; "total_charge"].
Proof.
  intros Hm Hmne Hloaded Hdate df monthly Hne.
  split; [|split; [|done]]; intros Hdt.
  - rewrite (billing_run _ _ _ _ _ Hm Hmne Hloaded).
    rewrite bool_decide_eq_true_2, Hdt by done. cbn [outcome].
    by rewrite (query_ok month (parse_dates raw) Hdate Hne).
  - rewrite (billing_run _ _ _ _ _ Hm Hmne Hloaded).
    rewrite bool_decide_eq_true_2, Hdt by done. cbn [outcome].
    rewrite (query_no_accessor month (parse_dates raw)); [done|].
    intros Hrows. apply Hne. unfold monthly, df. by rewrite Hrows.
Qed.

Lemma monthly_query_records_witness :
  let df := parse_dates Sample.readings in
  outcome (Billing.lambda_handler
             (Sample.world Sample.listing (Ok Sample.readings) (Ok ())) Sample.october) =
    Ok {| statusCode := 200;
          body := Json (JArr (monthly_record (columns df)
                                <$> filter (λ r, strftime_Ym (Date r) = "2025-10") (rows df))) |}.
Proof.
  destruct (monthly_query_records (Sample.world Sample.listing (Ok Sample.readings) (Ok ()))
              Sample.october "2025-10" Sample.latest_key Sample.readings) as [Hok _];
    [reflexivity|discriminate|apply sample_loaded|compute_done|vm_compute; discriminate|].
  exact (Hok eq_refl).
Defined.

(** C9 as stated fails on the field order: in the response
    [avg_submetering_value] follows the three sub-meterings, it is not the
    last field. *)
Lemma avg_submetering_value_is_not_last :
  ∃ first rest,
    outcome (Billing.lambda_handler
               (Sample.world Sample.listing (Ok Sample.readings) (Ok ())) Sample.october) =
      Ok {| statusCode := 200; body := Json (JArr (first :: rest)) |}
    ∧ json_keys first ≠ spec_column_order
    ∧ json_keys first !! 4%nat = Some "avg_submetering_value".
Proof.
  vm_compute. do 2 eexists. split; [reflexivity|]. split; [discriminate|reflexivity].
Qed.

(** ** C10: ties between snapshots *)

(** C10.  On both handlers the object fetched is the first of the listing
    whose [LastModified] is maximal: every object listed before it is
    strictly older, none after it is newer.  The choice depends on the
    listing alone.  The keys play no part: in the sample listing the two
    newest objects tie, and the one listed first, whose key is the greater
    of the two, is fetched; listed the other way round, the one with the
    smaller key is. *)
Theorem first_latest_snapshot_wins `{Pandas} (w w' : World) (event : Billing.Event)
    (month : string) (objs : list S3Object) :
  objs ≠ [] →
  (s3_listing w Anomaly.BUCKET_NAME Anomaly.S3_PREFIX = Ok objs →
   s3_listing w' Anomaly.BUCKET_NAME Anomaly.S3_PREFIX = Ok objs →
   ∃ x rest rest', first_maximal LastModified x objs
     ∧ trace (Anomaly.lambda_handler w) =
         S3ListObjectsV2 Anomaly.BUCKET_NAME Anomaly.S3_PREFIX
         :: S3GetObject Anomaly.BUCKET_NAME (Key x) :: rest
     ∧ trace (Anomaly.lambda_handler w') =
         S3ListObjectsV2 Anomaly.BUCKET_NAME Anomaly.S3_PREFIX
         :: S3GetObject Anomaly.BUCKET_NAME (Key x) :: rest')
  ∧ (Billing.month_param event = Some month → month ≠ "" →
     s3_listing w Billing.BUCKET_NAME Billing.S3_PREFIX = Ok objs →
     s3_listing w' Billing.BUCKET_NAME Billing.S3_PREFIX = Ok objs →
     ∃ x rest rest', first_maximal LastModified x objs
       ∧ trace (Billing.lambda_handler w event) =
           S3ListObjectsV2 Billing.BUCKET_NAME Billing.S3_PREFIX
           :: S3GetObject Billing.BUCKET_NAME (Key x) :: rest
       ∧ trace (Billing.lambda_handler w' event) =
           S3ListObjectsV2 Billing.BUCKET_NAME Billing.S3_PREFIX
           :: S3GetObject Billing.BUCKET_NAME (Key x) :: rest')
  ∧ (let newer := {| Key := "data/billing_agg_3.csv"; LastModified := 300 |} in
     let tied := {| Key := "data/billing_agg_2.csv"; LastModified := 300 |} in
     let older := {| Key := "data/billing_agg_1.csv"; LastModified := 100 |} in
     py_max LastModified [older; newer; tied] = Ok newer
     ∧ py_max LastModified [older; tied; newer] = Ok tied).
Proof.
  intros Hne. destruct (py_max_first_maximal LastModified objs Hne) as (x & Hmax & Hfirst).
  split; [|split; [|done]].
  - intros Hl Hl'.
    destruct (anomaly_selects w objs x Hl Hmax) as [rest Htrace].
    destruct (anomaly_selects w' objs x Hl' Hmax) as [rest' Htrace'].
    by exists x, rest, rest'.
  - intros Hm Hmne Hl Hl'.
    destruct (billing_selects w event month objs x Hm Hmne Hl Hmax) as [rest Htrace].
    destruct (billing_selects w' event month objs x Hm Hmne Hl' Hmax) as [rest' Htrace'].
    by exists x, rest, rest'.
Qed.

Lemma first_latest_snapshot_wins_witness :
  ∃ x rest rest',
    first_maximal LastModified x Sample.listing
    ∧ trace (Anomaly.lambda_handler (Sample.world Sample.listing (Ok Sample.readings) (Ok ()))) =
        S3ListObjectsV2 Anomaly.BUCKET_NAME Anomaly.S3_PREFIX
        :: S3GetObject Anomaly.BUCKET_NAME (Key x) :: rest
    ∧ trace (Anomaly.lambda_handler
               (Sample.world Sample.listing (Ok Sample.undated) (Raise Sample.delivery_failed))) =
        S3ListObjectsV2 Anomaly.BUCKET_NAME Anomaly.S3_PREFIX
        :: S3GetObject Anomaly.BUCKET_NAME (Key x) :: rest'.
Proof.
  apply (first_latest_snapshot_wins
           (Sample.world Sample.listing (Ok Sample.readings) (Ok ()))
           (Sample.world Sample.listing (Ok Sample.undated) (Raise Sample.delivery_failed))
           Sample.october "2025-10" Sample.listing); [discriminate|reflexivity|reflexivity].
Defined.

(** * Further properties of the handlers *)

(** ** The query handler *)

(** X1.  Without a month the query handler answers 400 and touches
    nothing: the event has no query string, or the query string has no
    [month], or [month] is empty. *)
Theorem month_is_required `{Pandas} (w : World) (event : Billing.Event) :
  (Billing.queryStringParameters event = None
   ∨ ∃ q, Billing.queryStringParameters event = Some q
          ∧ (q !! "month" = None ∨ q !! "month" = Some "")) →
  Billing.lambda_handler w event =
    IO [] (Ok {| statusCode := 400;
                 body := Json (JObj [("error",
                          JStr "Month parameter is required, e.g., ?month=2025-10")]) |}).
Proof.
  intros Hq. unfold Billing.lambda_handler.
  assert (Billing.month_param event = None ∨ Billing.month_param event = Some "") as [->| ->];
    [|done..].
  unfold Billing.month_param.
  destruct Hq as [->|(q & -> & [Hm|Hm])]; [left; apply lookup_empty|by left|by right].
Qed.

Lemma month_is_required_witness :
  Billing.lambda_handler (Sample.world Sample.listing (Ok Sample.readings) (Ok ()))
    {| Billing.queryStringParameters := Some {[ "year" := "2025" ]} |} =
    IO [] (Ok {| statusCode := 400;
                 body := Json (JObj [("error",
                          JStr "Month parameter is required, e.g., ?month=2025-10")]) |}).
Proof.
  apply month_is_required. right. exists {[ "year" := "2025" ]}. split; [reflexivity|].
  left. reflexivity.
Defined.

(** X2.  When the file has dated records, in a datetime Date column, but
    none in the month asked for, the answer is 404 and its message names the
    month; it is not an empty list of records. *)
Theorem no_data_for_month `{Pandas} (w : World) (event : Billing.Event)
    (month latest_file : string) (raw : RawFrame) :
  Billing.month_param event = Some month → month ≠ "" →
  snapshot_loaded w Billing.BUCKET_NAME Billing.S3_PREFIX latest_file raw →
  "Date" ∈ raw_columns raw →
  datetimelike (raw_column raw "Date") = true →
  rows (parse_dates raw) ≠ [] →
  filter (λ r, strftime_Ym (Date r) = month) (rows (parse_dates raw)) = [] →
  Billing.lambda_handler w event =
    IO [S3ListObjectsV2 Billing.BUCKET_NAME Billing.S3_PREFIX;
        S3GetObject Billing.BUCKET_NAME latest_file]
       (Ok {| statusCode := 404;
              body := Json (JObj [("error",
                       JStr ("No billing data found for month " ++ month))]) |}).
Proof.
  intros Hm Hmne Hloaded Hdate Hdt Hne Hnone.
  rewrite (billing_run _ _ _ _ _ Hm Hmne Hloaded).
  rewrite bool_decide_eq_true_2, Hdt by done.
  by rewrite (query_not_found month (parse_dates raw) Hne Hnone).
Qed.

Lemma no_data_for_month_witness :
  Billing.lambda_handler (Sample.world Sample.listing (Ok Sample.readings) (Ok ()))
    {| Billing.queryStringParameters := Some {[ "month" := "2025-11" ]} |} =
    IO [S3ListObjectsV2 Billing.BUCKET_NAME Billing.S3_PREFIX;
        S3GetObject Billing.BUCKET_NAME Sample.latest_key]
       (Ok {| statusCode := 404;
              body := Json (JObj [("error", JStr "No billing data found for month 2025-11")]) |}).
Proof.
  apply (no_data_for_month _ _ "2025-11" Sample.latest_key Sample.readings);
    [reflexivity|discriminate|apply sample_loaded|compute_done|reflexivity| |].
  - vm_compute. discriminate.
  - vm_compute. reflexivity.
Defined.

Lemma strftime_Ym_length (t : Timestamp) : String.length (strftime_Ym t) = 7%nat.
Proof. reflexivity. Qed.

Lemma wrong_length_matches_nothing (month : string) (rs : list Row) :
  String.length month ≠ 7%nat → filter (λ r, strftime_Ym (Date r) = month) rs = [].
Proof.
  intros Hlen. induction rs as [|r rs IH]; [done|].
  rewrite filter_cons, decide_False; [done|].
  intros Heq. apply Hlen. by rewrite <- Heq, strftime_Ym_length.
Qed.

(** X3.  The month is compared as text with ['%Y-%m']: a selector that is
    not seven characters long, such as [2025-9], matches no record, and on
    a file with dated records in a datetime Date column the answer is the
    404 for the month, not a 400. *)
Theorem malformed_month_is_not_found `{Pandas} (w : World) (event : Billing.Event)
    (month latest_file : string) (raw : RawFrame) :
  Billing.month_param event = Some month → month ≠ "" →
  String.length month ≠ 7%nat →
  snapshot_loaded w Billing.BUCKET_NAME Billing.S3_PREFIX latest_file raw →
  "Date" ∈ raw_columns raw →
  datetimelike (raw_column raw "Date") = true →
  rows (parse_dates raw) ≠ [] →
  outcome (Billing.lambda_handler w event) =
    Ok {| statusCode := 404;
          body := Json (JObj [("error",
                   JStr ("No billing data found for month " ++ month))]) |}.
Proof.
  intros Hm Hmne Hlen Hloaded Hdate Hdt Hne.
  rewrite (billing_run _ _ _ _ _ Hm Hmne Hloaded).
  rewrite bool_decide_eq_true_2, Hdt by done. cbn [outcome].
  rewrite (query_not_found month (parse_dates raw) Hne); [done|].
  by apply wrong_length_matches_nothing.
Qed.

Lemma malformed_month_is_not_found_witness :
  outcome (Billing.lambda_handler (Sample.world Sample.listing (Ok Sample.readings) (Ok ()))
             {| Billing.queryStringParameters := Some {[ "month" := "2025-9" ]} |}) =
    Ok {| statusCode := 404;
          body := Json (JObj [("error", JStr "No billing data found for month 2025-9")]) |}.
Proof.
  apply (malformed_month_is_not_found _ _ "2025-9" Sample.latest_key Sample.readings);
    [reflexivity|discriminate|vm_compute; discriminate|apply sample_loaded|compute_done
    |reflexivity|].
  vm_compute. discriminate.
Defined.

Lemma query_total (month : string) (df : DataFrame) :
  "Date" ∈ columns df →
  ∃ r, Billing.query month true df = Ok r
       ∧ ((∃ records, r = {| statusCode := 200; body := Json (JArr records) |})
          ∨ r = {| statusCode := 404;
                   body := Billing.error_body ("No billing data found for month " ++ month) |}
          ∨ r = {| statusCode := 500;
                   body := Billing.error_body "No valid dates found in CSV" |}).
Proof.
  intros Hdate. destruct (rows df) as [|r0 rs] eqn:Hrows.
  { eexists. split; [by apply query_no_dates|]. by right; right. }
  destruct (filter (λ r, strftime_Ym (Date r) = month) (rows df)) as [|m ms] eqn:Hf.
  - eexists. split; [apply query_not_found; [by rewrite Hrows|done]|]. by right; left.
  - eexists. split; [apply query_ok; [done|by rewrite Hf]|]. left. by eexists.
Qed.

(** X4.  Once the month is given and the snapshot has been listed,
    downloaded and read, one exception is left: the [.dt] accessor that an
    object Date column does not have.  The handler answers with the record
    list, the 404 for the month, one of the two 500 schema errors, or the
    internal error of the accessor; and it answers with the last exactly
    when the file has the date column and a dated record and the parsed
    column is not a datetime column. *)
Theorem query_fails_only_on_accessor `{Pandas} (w : World) (event : Billing.Event)
    (month latest_file : string) (raw : RawFrame) :
  Billing.month_param event = Some month → month ≠ "" →
  snapshot_loaded w Billing.BUCKET_NAME Billing.S3_PREFIX latest_file raw →
  ∃ r, Billing.lambda_handler w event =
         IO [S3ListObjectsV2 Billing.BUCKET_NAME Billing.S3_PREFIX;
             S3GetObject Billing.BUCKET_NAME latest_file] (Ok r)
       ∧ ((∃ records, r = {| statusCode := 200; body := Json (JArr records) |})
          ∨ r = {| statusCode := 404;
                   body := Billing.error_body ("No billing data found for month " ++ month) |}
          ∨ r = {| statusCode := 500;
                   body := Billing.error_body "No valid dates found in CSV" |}
          ∨ r = {| statusCode := 500;
                   body := Billing.error_body "CSV missing 'Date' column" |}
          ∨ r = no_dt_accessor)
       ∧ (r = no_dt_accessor ↔
            "Date" ∈ raw_columns raw ∧ rows (parse_dates raw) ≠ []
            ∧ datetimelike (raw_column raw "Date") = false).
Proof.
  intros Hm Hmne Hloaded. rewrite (billing_run _ _ _ _ _ Hm Hmne Hloaded).
  case_bool_decide as Hdate.
  2:{ eexists. split; [done|]. split; [by right; right; right; left|].
      split; [done|]. by intros [? _]. }
  destruct (decide (rows (parse_dates raw) = [])) as [Hrows|Hrows].
  { rewrite (query_no_dates month _ _ Hrows). eexists. split; [done|].
    split; [by right; right; left|]. split; [done|]. by intros (_ & ? & _). }
  destruct (datetimelike (raw_column raw "Date")) eqn:Hdt.
  - destruct (query_total month (parse_dates raw) Hdate) as (r & -> & Hr).
    exists r. split; [done|]. split; [tauto|]. split; [|by intros (_ & _ & ?)].
    intros ->. exfalso. destruct Hr as [[records Hr]|[Hr|Hr]]; discriminate Hr.
  - rewrite (query_no_accessor month _ Hrows). exists no_dt_accessor. split; [done|].
    split; [by right; right; right; right|]. done.
Qed.

Lemma query_fails_only_on_accessor_witness :
  Billing.lambda_handler (H := Sample.pandas_mixed_offsets)
    (Sample.world_mixed_offsets Sample.listing (Ok Sample.readings) (Ok ())) Sample.october =
    IO [S3ListObjectsV2 Billing.BUCKET_NAME Billing.S3_PREFIX;
        S3GetObject Billing.BUCKET_NAME Sample.latest_key] (Ok no_dt_accessor)
  ∧ ∃ records,
      Billing.lambda_handler (Sample.world Sample.listing (Ok Sample.readings) (Ok ()))
        Sample.october =
        IO [S3ListObjectsV2 Billing.BUCKET_NAME Billing.S3_PREFIX;
            S3GetObject Billing.BUCKET_NAME Sample.latest_key]
           (Ok {| statusCode := 200; body := Json (JArr records) |}).
Proof.
  split.
  - destruct (query_fails_only_on_accessor (H := Sample.pandas_mixed_offsets)
                (Sample.world_mixed_offsets Sample.listing (Ok Sample.readings) (Ok ()))
                Sample.october "2025-10" Sample.latest_key Sample.readings)
      as (r & Hrun & _ & Hiff);
      [reflexivity|discriminate
      |exists Sample.listing, {| Key := Sample.latest_key; LastModified := 300 |},
         Sample.readings; repeat split; reflexivity|].
    rewrite Hrun. f_equal. f_equal. apply Hiff.
    split; [compute_done|]. split; [vm_compute; discriminate|reflexivity].
  - destruct (query_fails_only_on_accessor
                (Sample.world Sample.listing (Ok Sample.readings) (Ok ()))
                Sample.october "2025-10" Sample.latest_key Sample.readings)
      as (r & Hrun & _ & _); [reflexivity|discriminate|apply sample_loaded|].
    assert (IO [S3ListObjectsV2 Billing.BUCKET_NAME Billing.S3_PREFIX;
                S3GetObject Billing.BUCKET_NAME Sample.latest_key] (Ok r)
            = Billing.lambda_handler
                (Sample.world Sample.listing (Ok Sample.readings) (Ok ())) Sample.october)
      as Heq by (symmetry; exact Hrun).
    vm_compute in Heq. injection Heq as ->. rewrite Hrun. eexists. reflexivity.
Defined.

(** X5.  The query handler makes at most two calls, the listing and then
    one download, and none at all without a month; it never publishes. *)
Theorem query_calls `{Pandas} (w : World) (event : Billing.Event) :
  trace (Billing.lambda_handler w event) = []
  ∨ trace (Billing.lambda_handler w event) =
      [S3ListObjectsV2 Billing.BUCKET_NAME Billing.S3_PREFIX]
  ∨ ∃ latest_file,
      trace (Billing.lambda_handler w event) =
        [S3ListObjectsV2 Billing.BUCKET_NAME Billing.S3_PREFIX;
         S3GetObject Billing.BUCKET_NAME latest_file].
Proof.
  unfold Billing.lambda_handler.
  destruct (Billing.month_param event) as [[|c month]|] eqn:Hm; [by left| |by left].
  right.
  destruct (s3_listing w Billing.BUCKET_NAME Billing.S3_PREFIX) as [objs|e] eqn:Hl.
  2:{ rewrite (find_latest_raise _ _ _ _ Hl). by left. }
  destruct objs as [|o objs].
  { rewrite (find_latest_none _ _ _ Hl). by left. }
  destruct (find_latest_some w _ _ (o :: objs) Hl) as (x & _ & _ & ->); [done|]. cbn.
  right. exists (Key x).
  unfold load_csv, get_object. cbn.
  destruct (s3_body w _ _) as [body|e]; cbn; [|done].
  destruct (read_csv body) as [raw|e]; cbn -[parse_dates raw_column]; [|done].
  case_bool_decide; cbn -[parse_dates raw_column]; [|done].
  destruct (Billing.query _ _ _) as [r|e]; done.
Qed.


(** X7.  A failed download, or a body that [read_csv] rejects, is reported
    with the message of the exception after the listing and the one
    download: by the anomaly handler as [{error}], by the query handler as
    [{error, details}], both with status 500. *)
Theorem load_failure_is_reported `{Pandas} (w : World) (event : Billing.Event)
    (month : string) (objs : list S3Object) (latest : S3Object) (e : exn) :
  py_max LastModified objs = Ok latest →
  (s3_listing w Anomaly.BUCKET_NAME Anomaly.S3_PREFIX = Ok objs →
   (s3_body w Anomaly.BUCKET_NAME (Key latest) = Raise e
    ∨ ∃ body, s3_body w Anomaly.BUCKET_NAME (Key latest) = Ok body ∧ read_csv body = Raise e) →
   Anomaly.lambda_handler w =
     IO [S3ListObjectsV2 Anomaly.BUCKET_NAME Anomaly.S3_PREFIX;
         S3GetObject Anomaly.BUCKET_NAME (Key latest)]
        (Ok {| statusCode := 500; body := Json (JObj [("error", JStr (str e))]) |}))
  ∧ (Billing.month_param event = Some month → month ≠ "" →
     s3_listing w Billing.BUCKET_NAME Billing.S3_PREFIX = Ok objs →
     (s3_body w Billing.BUCKET_NAME (Key latest) = Raise e
      ∨ ∃ body, s3_body w Billing.BUCKET_NAME (Key latest) = Ok body ∧ read_csv body = Raise e) →
     Billing.lambda_handler w event =
       IO [S3ListObjectsV2 Billing.BUCKET_NAME Billing.S3_PREFIX;
           S3GetObject Billing.BUCKET_NAME (Key latest)]
          (Ok {| statusCode := 500;
                 body := Json (JObj [("error", JStr "Internal server error");
                                     ("details", JStr (str e))]) |})).
Proof.
  intros Hmax. split.
  - intros Hl Hfail. unfold Anomaly.lambda_handler.
    rewrite (find_latest_max _ _ _ _ _ Hl Hmax). cbn. unfold load_csv, get_object. cbn.
    destruct Hfail as [->|(body & -> & Hcsv)]; cbn; [done|]. by rewrite Hcsv.
  - intros Hm Hmne Hl Hfail. unfold Billing.lambda_handler. rewrite Hm.
    destruct month as [|c month]; [done|].
    rewrite (find_latest_max _ _ _ _ _ Hl Hmax). cbn. unfold load_csv, get_object. cbn.
    destruct Hfail as [->|(body & -> & Hcsv)]; cbn; [done|]. by rewrite Hcsv.
Qed.

Lemma load_failure_is_reported_witness :
  let w := Sample.world Sample.listing (Raise Sample.access_denied) (Ok ()) in
  outcome (Anomaly.lambda_handler w) =
    Ok {| statusCode := 500; body := Json (JObj [("error", JStr (str Sample.access_denied))]) |}
  ∧ outcome (Billing.lambda_handler w Sample.october) =
    Ok {| statusCode := 500;
          body := Json (JObj [("error", JStr "Internal server error");
                              ("details", JStr (str Sample.access_denied))]) |}.
Proof.
  intros w.
  destruct (load_failure_is_reported w Sample.october "2025-10" Sample.listing
              {| Key := Sample.latest_key; LastModified := 300 |} Sample.access_denied)
    as [Ha Hb]; [reflexivity|].
  split.
  - rewrite Ha; [reflexivity|reflexivity|by left].
  - rewrite Hb; [reflexivity|reflexivity|discriminate|reflexivity|by left].
Defined.

(** ** The anomaly handler *)



Lemma scan_rows_length cols avg rs alerts :
  Anomaly.scan_rows cols avg rs = Ok alerts → (length alerts ≤ 4 * length rs)%nat.
Proof.
  revert alerts. induction rs as [|r rs IH]; intros alerts; simpl.
  - intros [= <-]. simpl. lia.
  - intros Hs. apply bind_Ok in Hs as (here & Hhere & Hs).
    apply bind_Ok in Hs as (rest & Hrest & Hs). injection Hs as <-.
    apply row_alerts_length in Hhere. specialize (IH _ Hrest). rewrite length_app. lia.
Qed.

Lemma detect_length (df : DataFrame) (alerts : list alert) :
  Anomaly.detect df = Ok alerts → (length alerts ≤ 4 * length (rows df))%nat.
Proof.
  unfold Anomaly.detect. intros (avg & _ & Hscan)%bind_Ok. by eapply scan_rows_length.
Qed.

(** X9.  Detection on a coerced dataset returns at most four alerts per
    record. *)
Theorem alert_count_is_bounded `{Pandas} (df0 : DataFrame) :
  ∃ alerts, Anomaly.detect (Anomaly.coerce_numeric df0) = Ok alerts
            ∧ (length alerts ≤ 4 * length (rows df0))%nat.
Proof.
  destruct (detect_total _ (coerce_numeric_frame df0)) as [alerts Hdet].
  exists alerts. split; [exact Hdet|].
  rewrite <- (coerce_numeric_length df0). exact (detect_length _ _ Hdet).
Qed.

Lemma series_mean_nums (qs : list Q) :
  qs ≠ [] → series_mean (Num <$> qs) = Ok (Num (Qsum qs / inject_Z (Z.of_nat (length qs)))).
Proof.
  intros Hne. unfold series_mean.
  assert (existsb is_str (Num <$> qs) = false) as ->
    by (clear Hne; induction qs as [|q qs IH]; [reflexivity|exact IH]).
  assert (floats (Num <$> qs) = qs) as ->.
  { unfold floats. induction qs as [|q qs IH]; [done|]. cbn.
    destruct qs; [done|]. by rewrite IH. }
  by destruct qs.
Qed.

Lemma coerced_daily_sums `{Pandas} (cols : list string) (rs rs' : list Row) :
  Forall2 (coerced_row cols numeric_cols) rs rs' →
  ∃ qs, Forall2 (λ r q, coerced cols (cells r) "total_daily_sum" = Num q) rs qs
        ∧ (λ r, cell (cells r) "total_daily_sum") <$> rs' = Num <$> qs.
Proof.
  induction 1 as [|r r' rs rs' Hrow _ IH]; [by exists []|].
  destruct Hrow as [_ Hc]. destruct IH as (qs & Hqs & Heq).
  destruct (coerced_num cols (cells r) "total_daily_sum") as [q Hq].
  exists (q :: qs). split; [by constructor|].
  cbn. rewrite Heq, Hc, bool_decide_eq_true_2 by compute_done. by rewrite Hq.
Qed.

(** X10.  On a dataset with records, the average that the
    high-consumption rule compares with is the mean of one number per
    record, the daily sum that the coercion left: a record with a missing or
    unparsable daily sum enters the mean as 0 and is not skipped. *)
Theorem average_counts_every_record `{Pandas} (df0 : DataFrame) :
  rows df0 ≠ [] →
  ∃ qs,
    Forall2 (λ r q, coerced (columns df0) (cells r) "total_daily_sum" = Num q) (rows df0) qs
    ∧ Anomaly.avg_daily_of (Anomaly.coerce_numeric df0) = series_mean (Num <$> qs).
Proof.
  intros Hne.
  destruct (coerced_daily_sums (columns df0) (rows df0) (rows (Anomaly.coerce_numeric df0))
              (coerce_numeric_rows df0)) as (qs & Hqs & Hcol).
  exists qs. split; [done|].
  unfold Anomaly.avg_daily_of, get_column.
  rewrite bool_decide_eq_true_2 by (apply coerce_numeric_columns; right; compute_done).
  cbn [mbind result_bind]. rewrite Hcol.
  destruct qs as [|q qs]; [|done].
  apply Forall2_nil_inv_r in Hqs. done.
Qed.

Lemma average_counts_every_record_witness :
  ∃ qs, length qs = 3%nat
        ∧ Anomaly.avg_daily_of (Anomaly.coerce_numeric (parse_dates Sample.garbled)) =
            series_mean (Num <$> qs).
Proof.
  destruct (average_counts_every_record (parse_dates Sample.garbled)) as (qs & Hqs & Havg);
    [vm_compute; discriminate|].
  exists qs. split; [|exact Havg].
  symmetry. exact (Forall2_length _ _ _ Hqs).
Defined.

Lemma scan_rows_elem cols avg rs alerts a :
  Anomaly.scan_rows cols avg rs = Ok alerts →
  a ∈ alerts ↔ ∃ row here, row ∈ rs ∧ Anomaly.row_alerts cols avg row = Ok here ∧ a ∈ here.
Proof.
  revert alerts. induction rs as [|r rs IH]; intros alerts; simpl.
  - intros [= <-]. split; [by intros ?%elem_of_nil|].
    by intros (row & here & ?%elem_of_nil & _).
  - intros Hs. apply bind_Ok in Hs as (here & Hhere & Hs).
    apply bind_Ok in Hs as (rest & Hrest & Hs). injection Hs as <-.
    rewrite elem_of_app, (IH _ Hrest). split.
    + intros [Hin|(row & h & Hrow & Hh & Hin)].
      * exists r, here. split; [by left|done].
      * exists row, h. split; [by right|done].
    + intros (row & h & Hrow & Hh & Hin). apply elem_of_cons in Hrow as [->|Hrow].
      * left. rewrite Hhere in Hh. by injection Hh as ->.
      * right. by exists row, h.
Qed.

Lemma getitem_cell cols row c v :
  c ∈ cols → cell (cells row) c = v → getitem cols row c = Ok v.
Proof. intros Hc <-. unfold getitem. by rewrite bool_decide_eq_true_2. Qed.

Lemma rule_high_numeric cols avg row d v :
  getitem cols row "total_daily_sum" = Ok (Num v) →
  Anomaly.rule_high cols (Num avg) row d =
    Ok (if Qltb 0 avg && Qltb ((3 # 2) * avg) v
        then [HighConsumption d (Num v) (Num avg)] else []).
Proof.
  intros Hv. unfold Anomaly.rule_high.
  change (py_gt (Num avg) (Num 0)) with (Ok (Qltb 0 avg)).
  destruct (Qltb 0 avg); cbn [mbind result_bind andb]; [|done].
  rewrite Hv. cbn [mbind result_bind py_mul].
  change (py_gt (Num v) (Num ((3 # 2) * avg))) with (Ok (Qltb ((3 # 2) * avg) v)).
  by destruct (Qltb ((3 # 2) * avg) v).
Qed.

Lemma rule_zero_numeric cols row d v :
  getitem cols row "total_daily_sum" = Ok (Num v) →
  Anomaly.rule_zero cols row d = Ok (if Qeq_bool v 0 then [ZeroConsumption d] else []).
Proof.
  intros Hv. unfold Anomaly.rule_zero. rewrite Hv. cbn [mbind result_bind py_eq].
  by destruct (Qeq_bool v 0).
Qed.

Lemma rule_spike_elem cols row d todo a3 d' c x :
  Anomaly.rule_spike cols row d todo = Ok a3 →
  SubMeteringSpike d' c x ∈ a3 ↔
    d' = d ∧ c ∈ todo ∧ ∃ q, getitem cols row c = Ok (Num q) ∧ x = Num q ∧ (10000 < q)%Q.
Proof.
  intros Hs. split.
  - intros Hin. destruct (rule_spike_fires _ _ _ _ _ _ Hs Hin) as (col & q & Hc & Hq & Hlt & Heq).
    injection Heq as -> -> ->. eauto 10.
  - intros (-> & Hc & q & Hq & -> & Hlt). revert a3 Hs.
    induction todo as [|col todo IH]; intros a3; [by apply elem_of_nil in Hc|].
    cbn [Anomaly.rule_spike]. intros Hs.
    apply bind_Ok in Hs as (v & Hv & Hs). apply bind_Ok in Hs as (above & Habove & Hs).
    apply bind_Ok in Hs as (rest & Hrest & Hs). injection Hs as <-.
    apply elem_of_app. apply elem_of_cons in Hc as [->|Hc]; [left|right; by apply IH].
    rewrite Hq in Hv. injection Hv as <-. cbn in Habove. injection Habove as <-.
    apply Qltb_lt in Hlt. rewrite Hlt. by apply list_elem_of_singleton.
Qed.

Lemma elem_of_if_singleton {A : Type} (b : bool) (a a' : A) :
  a ∈ (if b then [a'] else []) ↔ b = true ∧ a = a'.
Proof.
  destruct b.
  - rewrite list_elem_of_singleton. split; [by intros ->|by intros [_ ->]].
  - rewrite elem_of_nil. split; [done|by intros [? _]].
Qed.

Lemma alerts_of_numeric_frame (df : DataFrame) :
  numeric_frame df →
  ∃ avg alerts,
    Anomaly.avg_daily_of df = Ok (Num avg) ∧ Anomaly.detect df = Ok alerts ∧
    (∀ d x y, HighConsumption d x y ∈ alerts ↔
       ∃ row v, row ∈ rows df ∧ cell (cells row) "total_daily_sum" = Num v
         ∧ d = strftime_dmY (Date row) ∧ x = Num v ∧ y = Num avg
         ∧ (0 < avg)%Q ∧ ((3 # 2) * avg < v)%Q) ∧
    (∀ d, ZeroConsumption d ∈ alerts ↔
       ∃ row v, row ∈ rows df ∧ cell (cells row) "total_daily_sum" = Num v
         ∧ d = strftime_dmY (Date row) ∧ (v == 0)%Q) ∧
    (∀ d c x, SubMeteringSpike d c x ∈ alerts ↔
       ∃ row v, row ∈ rows df ∧ c ∈ Anomaly.sub_meter_cols ∧ cell (cells row) c = Num v
         ∧ d = strftime_dmY (Date row) ∧ x = Num v ∧ (10000 < v)%Q).
Proof.
  intros Hn.
  destruct (avg_daily_num df Hn) as [avg Havg]. destruct Hn as [Hcols Hrows].
  destruct (scan_rows_total (columns df) avg (rows df) Hcols Hrows) as [alerts Hscan].
  exists avg, alerts. split; [done|]. split; [unfold Anomaly.detect; by rewrite Havg|].
  rewrite Forall_forall in Hrows.
  assert (∀ row, row ∈ rows df →
            ∃ v here a3, cell (cells row) "total_daily_sum" = Num v
              ∧ getitem (columns df) row "total_daily_sum" = Ok (Num v)
              ∧ Anomaly.rule_spike (columns df) row (strftime_dmY (Date row))
                  Anomaly.sub_meter_cols = Ok a3
              ∧ Anomaly.row_alerts (columns df) (Num avg) row = Ok here
              ∧ here = ((if Qltb 0 avg && Qltb ((3 # 2) * avg) v
                         then [HighConsumption (strftime_dmY (Date row)) (Num v) (Num avg)]
                         else [])
                        ++ (if Qeq_bool v 0 then [ZeroConsumption (strftime_dmY (Date row))]
                            else []) ++ a3)%list) as Hrow.
  { intros row Hin. specialize (Hrows row Hin).
    destruct (getitem_numeric (columns df) row "total_daily_sum" Hcols Hrows)
      as (v & Hget & Hcell); [compute_done|].
    destruct (rule_spike_total (columns df) row (strftime_dmY (Date row))
                Anomaly.sub_meter_cols Hcols Hrows) as [a3 Ha3];
      [intros c Hc; apply elem_of_app; by left|].
    exists v. eexists. exists a3. split; [done|]. split; [done|]. split; [done|].
    split; [|reflexivity]. unfold Anomaly.row_alerts.
    rewrite (rule_high_numeric _ _ _ _ _ Hget), (rule_zero_numeric _ _ _ _ Hget), Ha3. done. }
  pose proof (@elem_of_if_singleton alert) as Hif.
  repeat split.
  - intros Hin. apply (scan_rows_elem _ _ _ _ _ Hscan) in Hin as (row & here & Hr & Hh & Hin).
    destruct (Hrow row Hr) as (v & here' & a3 & Hcell & Hget & Ha3 & Hh' & ->).
    rewrite Hh in Hh'. injection Hh' as ->.
    rewrite !elem_of_app, !Hif in Hin. destruct Hin as [[Hb Heq]|[[_ ?]|Hin]]; [|done|].
    + injection Heq as -> -> ->. apply andb_true_iff in Hb as [H1%Qltb_lt H2%Qltb_lt].
      exists row, v. done.
    + by destruct (rule_spike_fires _ _ _ _ _ _ Ha3 Hin) as (? & ? & _ & _ & _ & ?).
  - intros (row & v & Hr & Hcell & -> & -> & -> & Hpos & Hlim).
    apply (scan_rows_elem _ _ _ _ _ Hscan).
    destruct (Hrow row Hr) as (v' & here & a3 & Hcell' & Hget & Ha3 & Hh & ->).
    rewrite Hcell in Hcell'. injection Hcell' as <-.
    exists row. eexists. split; [done|]. split; [exact Hh|].
    apply elem_of_app. left. apply Hif. split; [|done].
    apply andb_true_iff. by rewrite !Qltb_lt.
  - intros Hin. apply (scan_rows_elem _ _ _ _ _ Hscan) in Hin as (row & here & Hr & Hh & Hin).
    destruct (Hrow row Hr) as (v & here' & a3 & Hcell & Hget & Ha3 & Hh' & ->).
    rewrite Hh in Hh'. injection Hh' as ->.
    rewrite !elem_of_app, !Hif in Hin. destruct Hin as [[_ ?]|[[Hb Heq]|Hin]]; [done| |].
    + injection Heq as ->. apply Qeq_bool_iff in Hb. exists row, v. done.
    + by destruct (rule_spike_fires _ _ _ _ _ _ Ha3 Hin) as (? & ? & _ & _ & _ & ?).
  - intros (row & v & Hr & Hcell & -> & Hz).
    apply (scan_rows_elem _ _ _ _ _ Hscan).
    destruct (Hrow row Hr) as (v' & here & a3 & Hcell' & Hget & Ha3 & Hh & ->).
    rewrite Hcell in Hcell'. injection Hcell' as <-.
    exists row. eexists. split; [done|]. split; [exact Hh|].
    apply elem_of_app. right. apply elem_of_app. left. apply Hif. split; [|done].
    by apply Qeq_bool_iff.
  - intros Hin. apply (scan_rows_elem _ _ _ _ _ Hscan) in Hin as (row & here & Hr & Hh & Hin).
    destruct (Hrow row Hr) as (v & here' & a3 & Hcell & Hget & Ha3 & Hh' & ->).
    rewrite Hh in Hh'. injection Hh' as ->.
    rewrite !elem_of_app, !Hif in Hin. destruct Hin as [[_ ?]|[[_ ?]|Hin]]; [done..|].
    apply (rule_spike_elem _ _ _ _ _ _ _ _ Ha3) in Hin as (-> & Hc & q & Hq & -> & Hlt).
    exists row, q. repeat split; try done.
    unfold getitem in Hq. case_bool_decide; [|done]. by injection Hq.
  - intros (row & v & Hr & Hc & Hcell & -> & -> & Hlt).
    apply (scan_rows_elem _ _ _ _ _ Hscan).
    destruct (Hrow row Hr) as (v' & here & a3 & Hcell' & Hget & Ha3 & Hh & ->).
    exists row. eexists. split; [done|]. split; [exact Hh|].
    apply elem_of_app. right. apply elem_of_app. right.
    apply (rule_spike_elem _ _ _ _ _ _ _ _ Ha3). split; [done|]. split; [done|].
    exists v. split; [|done]. apply getitem_cell; [|done].
    apply Hcols. apply elem_of_app. by left.
Qed.

(** X11.  On a coerced dataset the zero-consumption and the spike alerts
    are exactly the violations: a zero-consumption alert is there for a date
    exactly when some record of that date has the daily sum 0, and a spike
    alert exactly when some record of that date has that value, above 10000,
    in that sub-metering column.  Every high-consumption alert carries one
    and the same average, which is positive, and the date and the daily sum
    of a record whose daily sum is above that average. *)
Theorem alerts_are_the_violations `{Pandas} (df0 : DataFrame) :
  let df := Anomaly.coerce_numeric df0 in
  ∃ alerts,
    Anomaly.detect df = Ok alerts ∧
    (∃ avg, ∀ d x y, HighConsumption d x y ∈ alerts →
       y = Num avg ∧ (0 < avg)%Q ∧
       ∃ row v, row ∈ rows df ∧ cell (cells row) "total_daily_sum" = Num v
         ∧ d = strftime_dmY (Date row) ∧ x = Num v ∧ (avg < v)%Q) ∧
    (∀ d, ZeroConsumption d ∈ alerts ↔
       ∃ row v, row ∈ rows df ∧ cell (cells row) "total_daily_sum" = Num v
         ∧ d = strftime_dmY (Date row) ∧ (v == 0)%Q) ∧
    (∀ d c x, SubMeteringSpike d c x ∈ alerts ↔
       ∃ row v, row ∈ rows df ∧ c ∈ Anomaly.sub_meter_cols ∧ cell (cells row) c = Num v
         ∧ d = strftime_dmY (Date row) ∧ x = Num v ∧ (10000 < v)%Q).
Proof.
  intros df.
  destruct (alerts_of_numeric_frame df (coerce_numeric_frame df0))
    as (avg & alerts & _ & Hdet & Hhigh & Hzero & Hspike).
  exists alerts. split; [exact Hdet|]. split; [|split; [exact Hzero|exact Hspike]].
  exists avg. intros d x y Hin.
  apply Hhigh in Hin as (row & v & Hrow & Hcell & Hd & Hx & Hy & Hpos & Hlim).
  split; [exact Hy|]. split; [exact Hpos|].
  exists row, v. repeat split; [exact Hrow|exact Hcell|exact Hd|exact Hx|lra].
Qed.

Lemma alerts_are_the_violations_witness :
  ∃ alerts,
    Anomaly.detect (Anomaly.coerce_numeric (parse_dates Sample.readings)) = Ok alerts
    ∧ ZeroConsumption "03-10-2025" ∈ alerts.
Proof.
  destruct (alerts_are_the_violations (parse_dates Sample.readings))
    as (alerts & Hdet & _ & Hzero & _).
  exists alerts. split; [exact Hdet|]. apply Hzero.
  assert (∃ row, rows (Anomaly.coerce_numeric (parse_dates Sample.readings)) !! 2%nat = Some row
                 ∧ cell (cells row) "total_daily_sum" = Num 0
                 ∧ "03-10-2025" = strftime_dmY (Date row))
    as (row & Hrow & Hcell & Hd) by (vm_compute; eexists; repeat split; reflexivity).
  exists row, 0%Q. split; [exact (list_elem_of_lookup_2 _ _ _ Hrow)|].
  split; [exact Hcell|]. split; [exact Hd|reflexivity].
Defined.

(** ** Cleaning *)

Lemma dropna_date_spec (rs : list (gmap string scalar)) (dates : list (option Timestamp)) :
  length dates = length rs →
  cells <$> dropna_date rs dates `sublist_of` rs
  ∧ Date <$> dropna_date rs dates = omap id dates
  ∧ (length (dropna_date rs dates) + length (filter (λ d, d = None) dates) = length rs)%nat.
Proof.
  revert dates. induction rs as [|r rs IH]; intros [|[t|] dates] Hlen; try done.
  - injection Hlen as Hlen. destruct (IH dates Hlen) as (Hsub & Hdates & Hcount).
    cbn [dropna_date]. rewrite !fmap_cons. cbn [Date cells].
    split; [by constructor|]. split; [cbn; by rewrite Hdates|].
    rewrite filter_cons, decide_False by done. cbn [length]. lia.
  - injection Hlen as Hlen. destruct (IH dates Hlen) as (Hsub & Hdates & Hcount).
    cbn [dropna_date].
    split; [by constructor|]. split; [done|].
    rewrite filter_cons, decide_True by done. cbn [length]. lia.
Qed.

Lemma dropna_date_zip (rs : list (gmap string scalar)) (dates : list (option Timestamp)) :
  dropna_date rs dates = omap dated (zip rs dates).
Proof.
  revert dates. induction rs as [|r rs IH]; intros [|[t|] dates]; try done.
  - cbn. by rewrite IH.
  - cbn. by rewrite IH.
Qed.

(** X12.  Parsing the dates keeps the rows whose date parsed, each with
    the date parsed for it, in their order and with their cells untouched,
    and drops the others: the kept rows are the raw rows paired position by
    position with their parsed dates, without the pairs that have no date.
    So the dates of the kept rows are the parsed dates in order, and the row
    count goes down by the number of dates that did not parse. *)
Theorem unparsable_dates_drop_rows `{Pandas} (raw : RawFrame) :
  let dates := to_datetime (raw_column raw "Date") in
  length dates = length (raw_rows raw) →
  columns (parse_dates raw) = raw_columns raw
  ∧ rows (parse_dates raw) = omap dated (zip (raw_rows raw) dates)
  ∧ (∀ r, r ∈ rows (parse_dates raw) ↔
          ∃ i, raw_rows raw !! i = Some (cells r) ∧ dates !! i = Some (Some (Date r)))
  ∧ cells <$> rows (parse_dates raw) `sublist_of` raw_rows raw
  ∧ Date <$> rows (parse_dates raw) = omap id dates
  ∧ (length (rows (parse_dates raw)) + length (filter (λ d, d = None) dates)
     = length (raw_rows raw))%nat.
Proof.
  intros dates Hlen. split; [done|]. split; [apply dropna_date_zip|].
  split; [|by apply dropna_date_spec].
  intros r. cbn [parse_dates rows]. fold dates. rewrite dropna_date_zip, list_elem_of_omap.
  split.
  - intros ([cs d] & Hin & Hd). apply list_elem_of_lookup_1 in Hin as [i Hi].
    apply lookup_zip_Some in Hi as [Hcs Hdate]. exists i.
    unfold dated in Hd. cbn in Hd. destruct d as [t|]; [|done].
    injection Hd as <-. done.
  - intros (i & Hcs & Hdate). exists (cells r, Some (Date r)). split.
    + apply (list_elem_of_lookup_2 _ i). by apply lookup_zip_Some.
    + by destruct r.
Qed.

Lemma unparsable_dates_drop_rows_witness :
  (length (rows (parse_dates Sample.undated)) + 2 = 2)%nat
  ∧ Date <$> rows (parse_dates Sample.readings) =
      omap id (to_datetime (raw_column Sample.readings "Date")).
Proof.
  split.
  - exact (proj2 (proj2 (proj2 (proj2 (proj2
             (unparsable_dates_drop_rows Sample.undated eq_refl)))))).
  - exact (proj1 (proj2 (proj2 (proj2 (proj2
             (unparsable_dates_drop_rows Sample.readings eq_refl)))))).
Defined.

Section MoreCoercion.
Context `{Pandas}.

Lemma filter_absent_ext (cols cols' todo : list string) :
  (∀ c, c ∈ todo → (c ∈ cols ↔ c ∈ cols')) →
  filter (λ c, c ∉ cols) todo = filter (λ c, c ∉ cols') todo.
Proof.
  induction todo as [|c todo IH]; intros Hext; [done|].
  rewrite !filter_cons.
  rewrite IH by (intros c' Hc'; apply Hext; by right).
  destruct (decide (c ∉ cols)) as [Hc|Hc].
  - rewrite decide_True; [done|]. rewrite <- Hext; [done|by left].
  - rewrite decide_False; [done|]. rewrite <- Hext; [done|by left].
Qed.

Lemma coerce_column_labels (df : DataFrame) (col : string) :
  columns (Anomaly.coerce_column df col) =
    if bool_decide (col ∈ columns df) then columns df else (columns df ++ [col])%list.
Proof. unfold Anomaly.coerce_column, set_column. by case_bool_decide. Qed.

Lemma coerce_fold_columns (todo : list string) :
  NoDup todo → ∀ df : DataFrame,
  columns (fold_left Anomaly.coerce_column todo df) =
    (columns df ++ filter (λ c, c ∉ columns df) todo)%list.
Proof.
  induction todo as [|col todo IH]; intros Hnd df; cbn [fold_left].
  - by rewrite app_nil_r.
  - apply NoDup_cons in Hnd as [Hcol Hnd]. rewrite (IH Hnd). rewrite filter_cons.
    rewrite coerce_column_labels.
    destruct (decide (col ∈ columns df)) as [Hin|Hin].
    + rewrite bool_decide_eq_true_2 by done. by rewrite decide_False by tauto.
    + rewrite bool_decide_eq_false_2 by done. rewrite decide_True by done.
      rewrite <- app_assoc. cbn [app]. do 2 f_equal.
      apply filter_absent_ext. intros c Hc. rewrite elem_of_app, list_elem_of_singleton.
      split; [|tauto]. intros [?| ->]; [done|]. by destruct Hcol.
Qed.

(** X13.  The coercion keeps the labels of the frame in their order and
    appends, in the order of the loop, each of the seven columns that the
    file did not have. *)
Theorem coercion_appends_missing_columns (df : DataFrame) :
  columns (Anomaly.coerce_numeric df) =
    (columns df ++ filter (λ c, c ∉ columns df)
       ["total_Sub_metering_1"; "total_Sub_metering_2"; "total_Sub_metering_3";
        "total_daily_sum"; "peak_charge"; "offpeak_charge"; "total_charge"])%list.
Proof. apply (coerce_fold_columns numeric_cols numeric_cols_NoDup). Qed.

(** X14.  What the coercion does to the cells of a row.  A column outside
    the seven is untouched.  Of the seven, a column the file did not have is
    0; in a column it had, a number stays, a missing value becomes 0 and a
    text that parses becomes its number.  Whatever the input, the seven
    cells end up numbers. *)
Theorem coercion_of_cells (df : DataFrame) (i : nat) (r : Row) :
  rows df !! i = Some r →
  ∃ r', rows (Anomaly.coerce_numeric df) !! i = Some r' ∧ Date r' = Date r ∧
    ∀ c,
      (c ∉ numeric_cols → cell (cells r') c = cell (cells r) c)
      ∧ (c ∈ numeric_cols →
           (∃ q, cell (cells r') c = Num q)
           ∧ (c ∉ columns df → cell (cells r') c = Num 0)
           ∧ (c ∈ columns df →
                (∀ q, cell (cells r) c = Num q → cell (cells r') c = Num q)
                ∧ (cell (cells r) c = NaN → cell (cells r') c = Num 0)
                ∧ (∀ s q, cell (cells r) c = Str s → parse_float s = Some q →
                          cell (cells r') c = Num q))).
Proof.
  intros Hi.
  destruct (Forall2_lookup_l _ _ _ _ _ (coerce_numeric_rows df) Hi) as (r' & Hi' & Hd & Hc).
  exists r'. split; [done|]. split; [done|]. intros c. split.
  - intros Hout. by rewrite Hc, bool_decide_eq_false_2.
  - intros Hin. rewrite Hc, bool_decide_eq_true_2 by done. split; [apply coerced_num|].
    unfold coerced, to_numeric. split.
    + intros Habs. by rewrite bool_decide_eq_false_2.
    + intros Hpres. rewrite bool_decide_eq_true_2 by done. repeat split.
      * by intros q ->.
      * by intros ->.
      * by intros s q -> ->.
Qed.

Lemma coerce_column_keeps_numbers (c col : string) (df : DataFrame) :
  Forall (λ r, ∃ q, cells r !! c = Some (Num q)) (rows df) →
  Forall (λ r, ∃ q, cells r !! c = Some (Num q)) (rows (Anomaly.coerce_column df col)).
Proof.
  intros Hall. rewrite coerce_column_rows. apply Forall_fmap.
  eapply Forall_impl; [exact Hall|]. intros r [q Hq]. cbn.
  destruct (decide (col = c)) as [->|Hne].
  - rewrite lookup_insert_eq. destruct (coerced_num (columns df) (cells r) c) as [q' ->].
    by eexists.
  - rewrite lookup_insert_ne by done. by eexists.
Qed.

Lemma coerce_fold_keeps_numbers (c : string) (todo : list string) (df : DataFrame) :
  Forall (λ r, ∃ q, cells r !! c = Some (Num q)) (rows df) →
  Forall (λ r, ∃ q, cells r !! c = Some (Num q)) (rows (fold_left Anomaly.coerce_column todo df)).
Proof.
  revert df. induction todo as [|col todo IH]; intros df Hall; [done|].
  cbn [fold_left]. by apply IH, coerce_column_keeps_numbers.
Qed.

Lemma coerce_fold_stores_numbers (c : string) (todo : list string) (df : DataFrame) :
  c ∈ todo →
  Forall (λ r, ∃ q, cells r !! c = Some (Num q)) (rows (fold_left Anomaly.coerce_column todo df)).
Proof.
  revert df. induction todo as [|col todo IH]; intros df Hc; [by apply elem_of_nil in Hc|].
  cbn [fold_left]. destruct (decide (c = col)) as [->|Hne].
  - apply coerce_fold_keeps_numbers. rewrite coerce_column_rows. apply Forall_fmap.
    apply Forall_forall. intros r _. cbn. rewrite lookup_insert_eq.
    destruct (coerced_num (columns df) (cells r) col) as [q ->]. by eexists.
  - apply IH. apply elem_of_cons in Hc as [?|?]; [done|done].
Qed.

Lemma coerce_column_fixed (df : DataFrame) (col : string) :
  col ∈ columns df →
  Forall (λ r, ∃ q, cells r !! col = Some (Num q)) (rows df) →
  Anomaly.coerce_column df col = df.
Proof.
  intros Hin Hall. unfold Anomaly.coerce_column, set_column.
  rewrite !bool_decide_eq_true_2 by done. destruct df as [cols rs]. cbn in *. f_equal.
  induction Hall as [|r rs [q Hq] _ IH]; [done|].
  rewrite fmap_cons, IH. f_equal. destruct r as [d m]. cbn in *. f_equal.
  unfold cell. rewrite Hq. cbn. by apply insert_id.
Qed.

Lemma coerce_fold_fixed (todo : list string) (df : DataFrame) :
  (∀ c, c ∈ todo → c ∈ columns df
                   ∧ Forall (λ r, ∃ q, cells r !! c = Some (Num q)) (rows df)) →
  fold_left Anomaly.coerce_column todo df = df.
Proof.
  induction todo as [|col todo IH]; intros Hall; [done|]. cbn [fold_left].
  destruct (Hall col) as [Hin Hnum]; [by left|].
  rewrite (coerce_column_fixed df col Hin Hnum). apply IH.
  intros c Hc. apply Hall. by right.
Qed.

(** X15.  The coercion is idempotent: coercing a coerced frame changes
    nothing, neither the labels nor any cell. *)
Theorem coercion_is_idempotent (df : DataFrame) :
  Anomaly.coerce_numeric (Anomaly.coerce_numeric df) = Anomaly.coerce_numeric df.
Proof.
  change (fold_left Anomaly.coerce_column numeric_cols (Anomaly.coerce_numeric df)
          = Anomaly.coerce_numeric df).
  apply coerce_fold_fixed. intros c Hc. split.
  - apply coerce_numeric_columns. by right.
  - by apply (coerce_fold_stores_numbers c numeric_cols df).
Qed.
End MoreCoercion.

Lemma coercion_of_cells_witness :
  ∃ r', rows (Anomaly.coerce_numeric (parse_dates Sample.garbled)) !! 0%nat = Some r'
        ∧ cell (cells r') "total_daily_sum" = Num 12
        ∧ cell (cells r') "peak_charge" = Num 0
        ∧ cell (cells r') "Date" = Str "01-10-2025".
Proof.
  assert (∃ r, rows (parse_dates Sample.garbled) !! 0%nat = Some r
               ∧ cell (cells r) "total_daily_sum" = Str "12"
               ∧ cell (cells r) "Date" = Str "01-10-2025")
    as (r & Hr & Hsum & Hdate) by (vm_compute; eexists; repeat split; reflexivity).
  destruct (coercion_of_cells (parse_dates Sample.garbled) 0 r Hr) as (r' & Hr' & _ & Hc).
  exists r'. split; [exact Hr'|]. split; [|split].
  - destruct (Hc "total_daily_sum") as [_ Hin].
    destruct Hin as (_ & _ & Hpres); [compute_done|].
    destruct Hpres as (_ & _ & Htext); [compute_done|].
    exact (Htext "12" 12%Q Hsum eq_refl).
  - destruct (Hc "peak_charge") as [_ Hin].
    destruct Hin as (_ & Habs & _); [compute_done|].
    apply Habs. compute_done.
  - destruct (Hc "Date") as [Hout _]. rewrite Hout; [exact Hdate|compute_done].
Defined.

(** ** Dates as text *)

(** X16.  For four-digit years, filtering on the text ['%Y-%m'] of a
    timestamp is filtering on its calendar month: the records kept are those
    of the same year and the same month. *)
Theorem month_filter_is_calendar_month (t : Timestamp) (rs : list Row) :
  (ts_year t < 100 * 100)%nat → (ts_month t < 100)%nat →
  Forall (λ r, (ts_year (Date r) < 100 * 100)%nat ∧ (ts_month (Date r) < 100)%nat) rs →
  filter (λ r, strftime_Ym (Date r) = strftime_Ym t) rs =
  filter (λ r, ts_year (Date r) = ts_year t ∧ ts_month (Date r) = ts_month t) rs.
Proof.
  intros Hy Hm. induction 1 as [|r rs [Hry Hrm] _ IH]; [done|].
  rewrite !filter_cons, IH.
  pose proof (strftime_Ym_same_month (Date r) t Hry Hy Hrm Hm) as Hiff.
  destruct (decide (strftime_Ym (Date r) = strftime_Ym t)) as [Heq|Hne].
  - by rewrite decide_True by (by apply Hiff).
  - by rewrite decide_False by (by rewrite <- Hiff).
Qed.

Lemma month_filter_is_calendar_month_witness :
  let october := {| ts_year := 2025; ts_month := 10; ts_day := 1 |} in
  let rs := rows (parse_dates Sample.readings) in
  filter (λ r, strftime_Ym (Date r) = "2025-10") rs =
  filter (λ r, ts_year (Date r) = 2025%nat ∧ ts_month (Date r) = 10%nat) rs.
Proof.
  intros october rs.
  apply (month_filter_is_calendar_month october rs); [cbn; lia|cbn; lia|].
  compute_done.
Defined.

(** X17.  For two-digit days and months and four-digit years the text
    ['%d-%m-%Y'], which dates every alert and every returned record,
    determines the day. *)
Theorem date_text_determines_day (t u : Timestamp) :
  (ts_year t < 100 * 100)%nat → (ts_month t < 100)%nat → (ts_day t < 100)%nat →
  (ts_year u < 100 * 100)%nat → (ts_month u < 100)%nat → (ts_day u < 100)%nat →
  strftime_dmY t = strftime_dmY u → t = u.
Proof.
  intros Hy Hm Hd Hy' Hm' Hd' Heq.
  assert (zero_pad2 (ts_day t) = zero_pad2 (ts_day u)
          ∧ zero_pad2 (ts_month t) = zero_pad2 (ts_month u)
          ∧ zero_pad4 (ts_year t) = zero_pad4 (ts_year u)) as (H1 & H2 & H3).
  { revert Heq. unfold strftime_dmY, zero_pad4, zero_pad2.
    generalize (digit (ts_year t / 1000)) (digit (ts_year t / 100)) (digit (ts_year t / 10))
               (digit (ts_year t)) (digit (ts_month t / 10)) (digit (ts_month t))
               (digit (ts_day t / 10)) (digit (ts_day t))
               (digit (ts_year u / 1000)) (digit (ts_year u / 100)) (digit (ts_year u / 10))
               (digit (ts_year u)) (digit (ts_month u / 10)) (digit (ts_month u))
               (digit (ts_day u / 10)) (digit (ts_day u)).
    cbn [String.append].
    intros a1 a2 a3 a4 a5 a6 a7 a8 b1 b2 b3 b4 b5 b6 b7 b8 [= -> -> -> -> -> -> -> ->].
    done. }
  apply zero_pad2_inj in H1, H2; [|done..]. apply zero_pad4_inj in H3; [|done..].
  destruct t, u. cbn in *. by subst.
Qed.

Lemma date_text_determines_day_witness :
  {| ts_year := 2025; ts_month := 10; ts_day := 3 |} =
  {| ts_year := 45 * 45; ts_month := 2 * 5; ts_day := 1 + 2 |}.
Proof.
  apply date_text_determines_day; [cbn; lia..|reflexivity].
Defined.

(** ** The query path's filling *)

(** X18.  What the query path does to the cells of a row: it never
    raises; a column outside the eight billing columns is untouched; a
    billing column the file did not have is 0; in one it had, a number is
    returned as it is. *)
Theorem filling_of_cells (df : DataFrame) (i : nat) (r : Row) :
  rows df !! i = Some r →
  ∃ df' r', Billing.fill_missing df = Ok df' ∧ rows df' !! i = Some r' ∧ Date r' = Date r ∧
    ∀ c,
      (c ∉ Billing.billing_cols → cell (cells r') c = cell (cells r) c)
      ∧ (c ∈ Billing.billing_cols →
           (c ∉ columns df → cell (cells r') c = Num 0)
           ∧ (c ∈ columns df → ∀ q, cell (cells r) c = Num q → cell (cells r') c = Num q)).
Proof.
  intros Hi. destruct (fill_missing_spec df) as (df' & Hfill & _ & Hrows).
  destruct (Forall2_lookup_l _ _ _ _ _ Hrows Hi) as (r' & Hi' & Hd & Hc).
  exists df', r'. split; [done|]. split; [done|]. split; [done|]. intros c. split.
  - intros Hout. by rewrite Hc, bool_decide_eq_false_2.
  - intros Hin. rewrite Hc, bool_decide_eq_true_2 by done. unfold filled. split.
    + intros Habs. by rewrite bool_decide_eq_false_2.
    + intros Hpres q ->. by rewrite bool_decide_eq_true_2.
Qed.

Lemma filling_of_cells_witness :
  ∃ df' r', Billing.fill_missing (parse_dates Sample.readings) = Ok df'
            ∧ rows df' !! 0%nat = Some r'
            ∧ cell (cells r') "avg_submetering_value" = Num 0
            ∧ cell (cells r') "total_daily_sum" = Num 20.
Proof.
  assert (∃ r, rows (parse_dates Sample.readings) !! 0%nat = Some r
               ∧ cell (cells r) "total_daily_sum" = Num 20)
    as (r & Hr & Hsum) by (vm_compute; eexists; split; reflexivity).
  destruct (filling_of_cells (parse_dates Sample.readings) 0 r Hr)
    as (df' & r' & Hfill & Hr' & _ & Hc).
  exists df', r'. split; [exact Hfill|]. split; [exact Hr'|]. split.
  - destruct (Hc "avg_submetering_value") as [_ Hin].
    destruct Hin as [Habs _]; [compute_done|]. apply Habs. compute_done.
  - destruct (Hc "total_daily_sum") as [_ Hin].
    destruct Hin as [_ Hpres]; [compute_done|]. apply Hpres; [compute_done|exact Hsum].
Defined.

(** ** The high-consumption rule against the average *)

Lemma Qsum_cons_bound (L q : Q) (qs : list Q) :
  (inject_Z (Z.of_nat (length (q :: qs))) * L
   == inject_Z (Z.of_nat (length qs)) * L + L)%Q.
Proof.
  cbn [length]. rewrite Nat2Z.inj_succ, <- Z.add_1_r, inject_Z_plus.
  change (inject_Z 1) with 1%Q. ring.
Qed.

Lemma Qsum_at_least (L : Q) (qs : list Q) :
  Forall (λ q, (L < q)%Q) qs → (inject_Z (Z.of_nat (length qs)) * L <= Qsum qs)%Q.
Proof.
  induction 1 as [|q qs Hq _ IH].
  - change (0 * L <= 0)%Q. lra.
  - rewrite Qsum_cons_bound. cbn [Qsum fold_right]. fold (Qsum qs). lra.
Qed.

Lemma Qsum_above (L : Q) (qs : list Q) :
  qs ≠ [] → Forall (λ q, (L < q)%Q) qs →
  (inject_Z (Z.of_nat (length qs)) * L < Qsum qs)%Q.
Proof.
  intros Hne Hall. destruct Hall as [|q qs Hq Hall]; [done|].
  apply Qsum_at_least in Hall.
  rewrite Qsum_cons_bound. cbn [Qsum fold_right]. fold (Qsum qs). lra.
Qed.

Lemma numeric_daily_sums (rs : list Row) :
  Forall numeric_row rs →
  ∃ qs, Forall2 (λ r q, cell (cells r) "total_daily_sum" = Num q) rs qs
        ∧ (λ r, cell (cells r) "total_daily_sum") <$> rs = Num <$> qs.
Proof.
  induction 1 as [|r rs Hr _ (qs & Hqs & Heq)]; [by exists []|].
  destruct (Hr "total_daily_sum") as [q Hq]; [compute_done|].
  exists (q :: qs). split; [by constructor|]. cbn. by rewrite Hq, Heq.
Qed.

Lemma not_all_above (avg : Q) (rs : list Row) (qs : list Q) :
  Forall2 (λ r q, cell (cells r) "total_daily_sum" = Num q) rs qs →
  (∃ r q, r ∈ rs ∧ cell (cells r) "total_daily_sum" = Num q ∧ (q <= (3 # 2) * avg)%Q)
  ∨ Forall (λ q, ((3 # 2) * avg < q)%Q) qs.
Proof.
  induction 1 as [|r q rs qs Hq _ [(r' & q' & Hin & Hc & Hle)|IH]]; [by right| |].
  - left. exists r', q'. split; [by right|done].
  - destruct (Qlt_le_dec ((3 # 2) * avg) q) as [Hlt|Hle].
    + right. by constructor.
    + left. exists r, q. split; [by left|done].
Qed.

Lemma some_record_is_not_high (df : DataFrame) :
  numeric_frame df → rows df ≠ [] →
  ∃ avg row here,
    Anomaly.avg_daily_of df = Ok (Num avg) ∧ row ∈ rows df
    ∧ Anomaly.row_alerts (columns df) (Num avg) row = Ok here
    ∧ ¬ fired_high here.
Proof.
  intros [Hcols Hrows] Hne.
  destruct (numeric_daily_sums (rows df) Hrows) as (qs & Hqs & Hcol).
  assert (qs ≠ []) as Hq.
  { intros ->. apply Forall2_nil_inv_r in Hqs. done. }
  assert (Anomaly.avg_daily_of df
          = Ok (Num (Qsum qs / inject_Z (Z.of_nat (length qs))))) as Havg.
  { unfold Anomaly.avg_daily_of, get_column.
    rewrite bool_decide_eq_true_2 by (apply Hcols; compute_done).
    cbn [mbind result_bind]. rewrite Hcol, <- (series_mean_nums qs Hq). by destruct qs. }
  set (n := inject_Z (Z.of_nat (length qs))) in *.
  set (avg := (Qsum qs / n)%Q) in *.
  assert (0 < n)%Q as Hn.
  { subst n. destruct qs; [done|]. cbn [length]. rewrite Nat2Z.inj_succ.
    change 0%Q with (inject_Z 0). rewrite <- Zlt_Qlt. lia. }
  assert (n * avg == Qsum qs)%Q as Hsum.
  { subst avg. field. lra. }
  assert (∃ row q, row ∈ rows df ∧ cell (cells row) "total_daily_sum" = Num q
                   ∧ (avg <= 0 ∨ q <= (3 # 2) * avg)%Q) as (row & q & Hin & Hcell & Hlow).
  { destruct (Qlt_le_dec 0 avg) as [Hpos|Hnonpos].
    - destruct (not_all_above avg (rows df) qs Hqs) as [(r & q & Hin & Hc & Hle)|Hall].
      + exists r, q. by repeat split; [..|right].
      + exfalso. pose proof (Qsum_above ((3 # 2) * avg) qs Hq Hall) as Habove.
        fold n in Habove. nra.
    - destruct (rows df) as [|r rs] eqn:Hr; [done|].
      apply Forall2_cons_inv_l in Hqs as (q & qs' & Hc & _ & _).
      exists r, q. split; [by left|]. split; [done|by left]. }
  rewrite Forall_forall in Hrows.
  destruct (row_alerts_total (columns df) avg row Hcols (Hrows row Hin)) as [here Hhere].
  exists avg, row, here. split; [done|]. split; [done|]. split; [done|].
  intros (d & x & y & Hfired).
  destruct (row_alerts_parts _ _ _ _ Hhere) as (a1 & a2 & a3 & H1 & H2 & H3 & ->).
  apply elem_of_app in Hfired as [Hf|Hf].
  - destruct (rule_high_fires _ _ _ _ _ H1) as [->|(a & v & [= <-] & Hv & Hpos & Hlim & _)];
      [by apply elem_of_nil in Hf|].
    unfold getitem in Hv. case_bool_decide; [|done]. rewrite Hcell in Hv. injection Hv as <-.
    destruct Hlow; lra.
  - apply elem_of_app in Hf as [Hf|Hf].
    + destruct (rule_zero_fires _ _ _ _ H2) as [->|(? & _ & _ & ->)];
        [by apply elem_of_nil in Hf|by apply list_elem_of_singleton in Hf].
    + by destruct (rule_spike_fires _ _ _ _ _ _ H3 Hf) as (? & ? & _ & _ & _ & ?).
Qed.

(** X19.  The high-consumption rule compares each record with the mean of
    all of them, so it can never flag every record: a coerced dataset that
    is not empty has a record without a high-consumption alert. *)
Theorem high_rule_spares_a_record `{Pandas} (df0 : DataFrame) :
  rows df0 ≠ [] →
  let df := Anomaly.coerce_numeric df0 in
  ∃ avg row here,
    Anomaly.avg_daily_of df = Ok (Num avg) ∧ row ∈ rows df
    ∧ Anomaly.row_alerts (columns df) (Num avg) row = Ok here
    ∧ ¬ fired_high here.
Proof.
  intros Hne df. apply some_record_is_not_high; [apply coerce_numeric_frame|].
  intros Hnil. apply Hne, length_zero_iff_nil.
  rewrite <- (coerce_numeric_length df0). fold df. by rewrite Hnil.
Qed.

Lemma high_rule_spares_a_record_witness :
  let df := Anomaly.coerce_numeric (parse_dates Sample.readings) in
  ∃ avg row here,
    Anomaly.avg_daily_of df = Ok (Num avg) ∧ row ∈ rows df
    ∧ Anomaly.row_alerts (columns df) (Num avg) row = Ok here
    ∧ ¬ fired_high here.
Proof.
  apply (high_rule_spares_a_record (parse_dates Sample.readings)).
  vm_compute. discriminate.
Defined.
